(** * Army publications server: result parsing and text extraction

    A shallow embedding of [src/app.py]: the search-result parser
    [parse_search_results], the text extractors [extract_pdf_text] and
    [extract_epub_text], the format detection of [extract_document_text],
    the download step [get_document_text_from_url], the exposed tool
    [get_publication], and the search tool [search_pubs] with its request
    [make_pubs_request], followed by the properties established about them.

    Conventions of the model.
    - A Python [str] and a Python [bytes] value are both a [string] of
      8-bit characters.  Text is taken in its UTF-8 encoding, so the em
      dash of the title separator is the three bytes E2 80 94.  The
      character classes ([str.lower], [str.strip], the regular expression
      classes) are the ones Python uses on the ASCII range.  On text with
      other characters Python does more, and the model does not follow it:
      [str.strip] and [\s] also take U+00A0 and the other Unicode spaces,
      [\w] and [\d] the letters and digits of other scripts, and
      [str.lower] maps for instance U+212A to k.  A property whose truth
      turns on these classes is stated for ASCII text.
    - [None] is [None]; a value of type [str | None] is an [option string].
    - Printing goes to a [world] that is threaded through every call, and
      exceptions are explicit ([outcome]).
    - The libraries the program calls (the HTML parser of BeautifulSoup, the
      serialisation of a tag, PyPDF2, ebooklib, tempfile, httpx, mimetypes)
      are parameters of the sections that use them; [urllib.parse.quote]
      is written out.  The HTML parser and [mimetypes.guess_type] are taken
      where they return: markup the parser rejects (it then raises
      ParserRejectedMarkup) and an address on which [guess_type] raises are
      outside the model. *)

From Stdlib Require Import String Ascii List Bool Arith Lia DecimalString.
Import ListNotations.
Local Open Scope list_scope.
Local Open Scope string_scope.

Set Implicit Arguments.
Set Warnings "-register-all".

(** ** Python strings *)

Module Py.

Definition nl : string := String (ascii_of_nat 10) "".

(** The separator of [title_text.split(' — ', 1)]: space, U+2014, space. *)
Definition em_dash_sep : string :=
  String " " (String (ascii_of_nat 226) (String (ascii_of_nat 128)
    (String (ascii_of_nat 148) (String " " "")))).

Definition in_range (lo hi : nat) (c : ascii) : bool :=
  let n := nat_of_ascii c in Nat.leb lo n && Nat.leb n hi.

(** [str.isspace] on one character of the ASCII range: TAB..CR, FS..US and
    the space.  The Unicode spaces (U+0085, U+00A0, U+2000.. and the like)
    are not white space here. *)
Definition isspace (c : ascii) : bool :=
  in_range 9 13 c || in_range 28 32 c.

Definition isupper (c : ascii) : bool := in_range 65 90 c.
Definition isdigit (c : ascii) : bool := in_range 48 57 c.

(** The class [\w] on the ASCII range: letters, digits and the underscore;
    [isdigit] is [\d] on the same range. *)
Definition isword (c : ascii) : bool :=
  in_range 97 122 c || in_range 65 90 c || in_range 48 57 c
  || Ascii.eqb c "_".

Definition lower_char (c : ascii) : ascii :=
  if isupper c then ascii_of_nat (nat_of_ascii c + 32) else c.

(** [s.lower()] on ASCII text: A..Z become a..z, every other byte stays. *)
Fixpoint lower (s : string) : string :=
  match s with
  | EmptyString => EmptyString
  | String c s' => String (lower_char c) (lower s')
  end.

(** [s.startswith(p)] *)
Fixpoint startswith (p s : string) : bool :=
  match p, s with
  | EmptyString, _ => true
  | String a p', String b s' => Ascii.eqb a b && startswith p' s'
  | String _ _, EmptyString => false
  end.

(** [sub in s] *)
Fixpoint contains (sub s : string) : bool :=
  startswith sub s ||
  match s with
  | EmptyString => false
  | String _ s' => contains sub s'
  end.

(** [s.endswith(suf)]: [suf] is one of the tails of [s]. *)
Fixpoint endswith (suf s : string) : bool :=
  String.eqb suf s ||
  match s with
  | EmptyString => false
  | String _ s' => endswith suf s'
  end.

Fixpoint drop (n : nat) (s : string) : string :=
  match n, s with
  | O, _ => s
  | S n', String _ s' => drop n' s'
  | S _, EmptyString => EmptyString
  end.

(** [s[:n]] *)
Definition slice_to (n : nat) (s : string) : string := substring 0 n s.

Fixpoint lstrip (s : string) : string :=
  match s with
  | EmptyString => EmptyString
  | String c s' => if isspace c then lstrip s' else s
  end.

Fixpoint rstrip (s : string) : string :=
  match s with
  | EmptyString => EmptyString
  | String c s' =>
      match rstrip s' with
      | EmptyString => if isspace c then EmptyString else String c EmptyString
      | r => String c r
      end
  end.

(** [s.strip()] *)
Definition strip (s : string) : string := rstrip (lstrip s).

(** The truth value of a string: non-empty. *)
Definition truthy (s : string) : bool :=
  match s with EmptyString => false | String _ _ => true end.

(** [s.split(sep, 1)] for a non-empty [sep]: the text before the first
    occurrence of [sep], and the text after it when there is one. *)
Fixpoint split_once (sep s : string) : string * option string :=
  if startswith sep s then (EmptyString, Some (drop (String.length sep) s))
  else match s with
       | EmptyString => (EmptyString, None)
       | String c s' =>
           let (h, t) := split_once sep s' in (String c h, t)
       end.

(** [s.split(c)] for a one-character separator; never the empty list. *)
Fixpoint split_char (c : ascii) (s : string) : list string :=
  match s with
  | EmptyString => [EmptyString]
  | String a s' =>
      if Ascii.eqb a c then EmptyString :: split_char c s'
      else match split_char c s' with
           | h :: t => String a h :: t
           | [] => [String a EmptyString]
           end
  end.

(** [sep.join(l)] *)
Fixpoint join (sep : string) (l : list string) : string :=
  match l with
  | [] => EmptyString
  | [x] => x
  | x :: l' => x ++ sep ++ join sep l'
  end.

(** [str(n)] for a length. *)
Definition str_of_nat (n : nat) : string :=
  NilEmpty.string_of_uint (Nat.to_uint n).

End Py.

(** ** The fragment of [re] the program uses

    Both patterns of the source are sequences of quantified character
    classes.  A quantifier is greedy and gives characters back one at a
    time when the rest of the pattern fails, as the backtracking matcher
    of [re] does. *)

Module Re.

Record item := Item
  { cls : ascii -> bool;        (* the character class *)
    rmin : nat;                 (* least number of repetitions *)
    rmax : option nat }.        (* greatest number, [None] for no bound *)

Definition pattern := list item.

Definition more_allowed (m : option nat) : bool :=
  match m with Some O => false | _ => true end.

Definition dec_max (m : option nat) : option nat :=
  match m with Some n => Some (pred n) | None => None end.

(** One quantified class against [s], then the continuation [k] on what is
    left; the result is the text that remains after the whole match. *)
Fixpoint rep (c : ascii -> bool) (lo : nat) (hi : option nat) (s : string)
    (k : string -> option string) : option string :=
  let stop := if Nat.eqb lo 0 then k s else None in
  match s with
  | String a s' =>
      if c a && more_allowed hi then
        match rep c (pred lo) (dec_max hi) s' k with
        | Some r => Some r
        | None => stop
        end
      else stop
  | EmptyString => stop
  end.

Fixpoint match_here (p : pattern) (s : string) : option string :=
  match p with
  | [] => Some s
  | i :: p' => rep (cls i) (rmin i) (rmax i) s (match_here p')
  end.

Definition matched (s rest : string) : string :=
  substring 0 (String.length s - String.length rest) s.

(** [re.match(p, s).group(1)] for a pattern that is one group, [None] when
    there is no match. *)
Definition re_match (p : pattern) (s : string) : option string :=
  match match_here p s with
  | Some rest => Some (matched s rest)
  | None => None
  end.

(** [re.search(p, s).group(1)]: the match at the leftmost position that has
    one. *)
Fixpoint re_search (p : pattern) (s : string) : option string :=
  match re_match p s with
  | Some m => Some m
  | None =>
      match s with
      | EmptyString => None
      | String _ s' => re_search p s'
      end
  end.

Definition plus (c : ascii -> bool) : item := Item c 1 None.
Definition exactly (n : nat) (c : ascii -> bool) : item := Item c n (Some n).
Definition between (lo hi : nat) (c : ascii -> bool) : item :=
  Item c lo (Some hi).
Definition lit (a : ascii) : item := Item (Ascii.eqb a) 1 (Some 1).

(** [r'^([A-Z]+)'] *)
Definition leading_upper : pattern := [plus Py.isupper].

(** [r'(\w{3}\s+\d{1,2},\s+\d{4})'], with the classes of the ASCII range. *)
Definition month_day_year : pattern :=
  [exactly 3 Py.isword; plus Py.isspace; between 1 2 Py.isdigit; lit ",";
   plus Py.isspace; exactly 4 Py.isdigit].

End Re.

(** ** Exceptions, printing and the monad of the program *)

Inductive exn : Type :=
| AttributeError (attr : string)
    (* 'NoneType' object has no attribute [attr] *)
| UnboundLocalError (var : string)
    (* the local variable [var] is read before any assignment *)
| LibraryError (description : string).
    (* raised inside a library call; [str(e)] is [description] *)

Definition str_of_exn (e : exn) : string :=
  match e with
  | AttributeError a => "'NoneType' object has no attribute '" ++ a ++ "'"
  | UnboundLocalError v =>
      "cannot access local variable '" ++ v
      ++ "' where it is not associated with a value"
  | LibraryError d => d
  end.

Inductive outcome (A : Type) : Type :=
| Return (a : A)
| Raise (e : exn).
Arguments Return {A} a.
Arguments Raise {A} e.

(** What the process has printed so far, oldest line first. *)
Definition world := list string.

Definition M (A : Type) : Type := world -> outcome A * world.

Definition ret {A} (a : A) : M A := fun w => (Return a, w).

Definition raise {A} (e : exn) : M A := fun w => (Raise e, w).

Definition bind {A B} (m : M A) (k : A -> M B) : M B :=
  fun w =>
    match m w with
    | (Return a, w') => k a w'
    | (Raise e, w') => (Raise e, w')
    end.

Definition print (line : string) : M unit :=
  fun w => (Return tt, (w ++ [line])%list).

(** [try: body  except Exception as e: handler(e)] *)
Definition try_except {A} (body : M A) (handler : exn -> M A) : M A :=
  fun w =>
    match body w with
    | (Return a, w') => (Return a, w')
    | (Raise e, w') => handler e w'
    end.

(** A library call or a pure step that may raise. *)
Definition lift {A} (o : outcome A) : M A := fun w => (o, w).

Definition result_of {A} (m : M A) (w : world) : outcome A := fst (m w).

Declare Scope py_scope.
Delimit Scope py_scope with py.
Notation "x <- m ;; k" := (bind m (fun x => k))
  (at level 61, m at next level, right associativity) : py_scope.
Notation "m ;;; k" := (bind m (fun _ => k))
  (at level 61, right associativity) : py_scope.
Local Open Scope py_scope.

Definition obind {A B} (o : outcome A) (k : A -> outcome B) : outcome B :=
  match o with
  | Return a => k a
  | Raise e => Raise e
  end.

(** ** The tree BeautifulSoup builds

    A page element is a tag or a string.  [get_text] yields the strings of
    class [NavigableString] (and [CData]); the others (comments, doctype,
    the content of script and style elements) are [OtherString].  The root
    of a parsed document is the [BeautifulSoup] object, a tag named
    [[document]].  An element is addressed by its path from the root, the
    list of child indices. *)

Module Bs4.

Inductive node : Type :=
| NavigableString (s : string)
| OtherString (s : string)
| Tag (name : string) (attrs : list (string * string)) (contents : list node).

Definition path := list nat.

Definition element : Type := path * node.

Definition is_tag (name : string) (n : node) : bool :=
  match n with
  | Tag nm _ _ => String.eqb nm name
  | _ => false
  end.

Fixpoint lookup (k : string) (d : list (string * string)) : option string :=
  match d with
  | [] => None
  | (k', v) :: d' => if String.eqb k' k then Some v else lookup k d'
  end.

(** [tag.attrs.get(k)] *)
Definition attr (k : string) (n : node) : option string :=
  match n with
  | Tag _ a _ => lookup k a
  | _ => None
  end.

Definition contents (n : node) : list node :=
  match n with
  | Tag _ _ cs => cs
  | _ => []
  end.

(** The element at [p] and everything below it, in document order. *)
Fixpoint elements (p : path) (n : node) {struct n} : list element :=
  (p, n) ::
  match n with
  | Tag _ _ cs =>
      (fix children (i : nat) (l : list node) {struct l} : list element :=
         match l with
         | [] => []
         | c :: l' => (elements (p ++ [i]) c ++ children (S i) l')%list
         end) 0 cs
  | _ => []
  end.

(** [tag.descendants] *)
Definition descendants (e : element) : list element :=
  tl (elements (fst e) (snd e)).

Fixpoint node_at (n : node) (p : path) : option node :=
  match p with
  | [] => Some n
  | i :: p' =>
      match nth_error (contents n) i with
      | Some c => node_at c p'
      | None => None
      end
  end.

Fixpoint first_match (f : element -> bool) (l : list element)
  : option element :=
  match l with
  | [] => None
  | e :: l' => if f e then Some e else first_match f l'
  end.

(** [tag.find(name)] *)
Definition find (name : string) (e : element) : option element :=
  first_match (fun d => is_tag name (snd d)) (descendants e).

(** [tag.find(name, {k: v})] *)
Definition find_attr (name k v : string) (e : element) : option element :=
  first_match
    (fun d => is_tag name (snd d) &&
              match attr k (snd d) with
              | Some v' => String.eqb v' v
              | None => false
              end)
    (descendants e).

(** [tag.find_all(name, k=True)] *)
Definition find_all_with (name k : string) (e : element) : list element :=
  filter
    (fun d => is_tag name (snd d) &&
              match attr k (snd d) with Some _ => true | None => false end)
    (descendants e).

Fixpoint path_eqb (p q : path) : bool :=
  match p, q with
  | [], [] => true
  | i :: p', j :: q' => Nat.eqb i j && path_eqb p' q'
  | _, _ => false
  end.

Fixpoint after (p : path) (l : list element) : list element :=
  match l with
  | [] => []
  | e :: l' => if path_eqb (fst e) p then l' else after p l'
  end.

(** [element.next_elements]: everything later in the document, the
    descendants of the element first. *)
Definition next_elements (soup : node) (e : element) : list element :=
  after (fst e) (elements [] soup).

(** [element.find_next(name)] *)
Definition find_next (soup : node) (name : string) (e : element)
  : option element :=
  first_match (fun d => is_tag name (snd d)) (next_elements soup e).

Fixpoint proper_prefixes (p : path) : list path :=
  match p with
  | [] => []
  | i :: p' => [] :: map (cons i) (proper_prefixes p')
  end.

(** [element.parents]: the enclosing tags, nearest first, up to the root. *)
Definition parents (soup : node) (e : element) : list element :=
  flat_map
    (fun q => match node_at soup q with
              | Some n => [(q, n)]
              | None => []
              end)
    (rev (proper_prefixes (fst e))).

(** [element.find_parent(name)] *)
Definition find_parent (soup : node) (name : string) (e : element)
  : option element :=
  first_match (fun d => is_tag name (snd d)) (parents soup e).

Fixpoint number_from {A} (i : nat) (l : list A) : list (nat * A) :=
  match l with
  | [] => []
  | x :: l' => (i, x) :: number_from (S i) l'
  end.

(** [element.next_siblings]: the later children of the same parent. *)
Definition next_siblings (soup : node) (e : element) : list element :=
  match rev (fst e) with
  | [] => []
  | i :: rq =>
      let q := rev rq in
      match node_at soup q with
      | Some parent =>
          map (fun c => ((q ++ [fst c])%list, snd c))
              (skipn (S i) (number_from 0 (contents parent)))
      | None => []
      end
  end.

(** [element.find_next_sibling(name)] *)
Definition find_next_sibling (soup : node) (name : string) (e : element)
  : option element :=
  first_match (fun d => is_tag name (snd d)) (next_siblings soup e).

(** The strings [get_text(strip=True)] collects: every [NavigableString]
    below the element, stripped, the empty ones left out. *)
Definition stripped_strings (e : element) : list string :=
  flat_map
    (fun d => match snd d with
              | NavigableString s =>
                  let t := Py.strip s in
                  if Py.truthy t then [t] else []
              | _ => []
              end)
    (descendants e).

(** [element.get_text(separator=sep, strip=True)]; the default separator is
    the empty string. *)
Definition get_text (sep : string) (e : element) : string :=
  Py.join sep (stripped_strings e).

(** The tree after [t.decompose()] for every tag [t] below the element whose
    name is in [names]. *)
Fixpoint decompose_all (names : list string) (n : node) {struct n} : node :=
  match n with
  | Tag nm a cs =>
      Tag nm a
        ((fix children (l : list node) {struct l} : list node :=
            match l with
            | [] => []
            | c :: l' =>
                if existsb (fun name => is_tag name c) names
                then children l'
                else decompose_all names c :: children l'
            end) cs)
  | _ => n
  end.

End Bs4.

(** ** The program *)

(** One entry of the list [parse_search_results] returns (a dict with these
    seven keys in the source). *)
Record publication : Type := Publication
  { document_number : string;
    title : string;
    document_type : string;
    file_format : string;
    date : string;
    description : string;
    url : string }.

(** The local variables of [parse_search_results] that live across the
    iterations of its loop.  [date_text] and [description] are assigned only
    on the branch where the link has an enclosing cell, so they may be
    unbound ([None]) when the dict is built. *)
Record locals : Type := Locals
  { results : list publication;
    date_text : option string;
    description_var : option string }.

(** [doc_content: bytes | str] *)
Inductive content : Type :=
| Bytes (b : string)
| Str (s : string).

(** The values [format_type] takes besides [None]. *)
Inductive format : Type := pdf | epub.

Definition str_of_format (f : option format) : string :=
  match f with
  | Some pdf => "pdf"
  | Some epub => "epub"
  | None => "None"
  end.

(** An item of an EPUB book: [item.get_type()] and [item.get_content()]. *)
Record epub_item : Type := EpubItem
  { item_type : nat;
    item_content : string }.

(** [ebooklib.ITEM_DOCUMENT] *)
Definition ITEM_DOCUMENT : nat := 9.

(** What [client.get] returns, as far as the program looks at it. *)
Record response : Type := Response
  { raise_for_status : outcome unit;
    content_type_header : option string;     (* [headers.get('content-type')] *)
    response_content : string }.

Definition USER_AGENT : string := "microsoft-army-pubs-mcp/0.1".

Definition RESULTS_ID : string := "MainContent_tblContentSearchResults".

Definition CAC_PHRASE : string := "Common Access Card (CAC) to view it".

Definition CAC_DESCRIPTION : string :=
  "This publication or form requires Common Access Card (CAC) to view it".

Definition CAC_REQUIRED : string :=
  "CAC_REQUIRED: This document requires Common Access Card (CAC) authentication".

Definition FAILED_TO_EXTRACT : string :=
  "Failed to extract text from the publication. It may not be a supported format or the content could not be retrieved.".

Definition or_default (d : string) (o : option string) : string :=
  match o with Some s => s | None => d end.

(** [doc_type_match = re.match(r'^([A-Z]+)', doc_number)] and
    [doc_type_match.group(1) if doc_type_match else "Unknown"]. *)
Definition doc_type_of (doc_number : string) : string :=
  let doc_type_match := Re.re_match Re.leading_upper doc_number in
  or_default "Unknown" doc_type_match.

(** Reading a local variable that may be unbound. *)
Definition read_local (var : string) (v : option string) : outcome string :=
  match v with
  | Some s => Return s
  | None => Raise (UnboundLocalError var)
  end.

(** [for x in l: st = body(st, x)], stopping at the first exception. *)
Fixpoint for_each {S X} (body : S -> X -> outcome S) (st : S) (l : list X)
  : outcome S :=
  match l with
  | [] => Return st
  | x :: l' => obind (body st x) (fun st' => for_each body st' l')
  end.

Section App.

(** The libraries. *)
Variable BeautifulSoup : string -> Bs4.node.
    (* [BeautifulSoup(markup, 'html.parser')], for markup the parser
       accepts *)
Variable tag_str : Bs4.node -> string.
    (* [str(tag)], the markup of a tag *)
Variable PdfReader : string -> outcome (list (outcome string)).
    (* [PyPDF2.PdfReader(io.BytesIO(b)).pages], each page with the outcome
       of its [extract_text()] *)
Variable NamedTemporaryFile : string -> outcome string.
    (* a new temporary file holding the bytes; its path *)
Variable read_epub : string -> string -> outcome (list epub_item).
    (* [epub.read_epub(path).get_items()], for a file at [path] that holds
       the given bytes *)
Variable guess_type : string -> option string.
    (* [mimetypes.guess_type(url)[0]], for an address on which it returns *)
Variable client_get : string -> list (string * string) -> nat
                      -> outcome response.
    (* [client.get(url, headers=..., timeout=...)] *)

(** *** parse_search_results *)

(** The cell that holds the date and the description of a link whose
    enclosing cell is [description_td]: the next cell of the row, else the
    first cell of the next row. *)
Definition next_cell (soup : Bs4.node) (description_td : Bs4.element)
  : outcome (option Bs4.element) :=
  match Bs4.find_next_sibling soup "td" description_td with
  | Some next_td => Return (Some next_td)
  | None =>
      match Bs4.find_parent soup "tr" description_td with
      | None => Raise (AttributeError "find_next_sibling")
      | Some tr =>
          match Bs4.find_next_sibling soup "tr" tr with
          | Some next_tr => Return (Bs4.find "td" next_tr)
          | None => Return None
          end
      end
  end.

(** [link['href']] of a link found with [href=True]. *)
Definition href_of (link : Bs4.element) : string :=
  or_default "" (Bs4.attr "href" (snd link)).

(** The test of the first [if] of the loop. *)
Definition is_publication_link (link : Bs4.element) : bool :=
  Py.contains "epubs" (href_of link) || Py.contains "pub/eforms" (href_of link).

Definition title_text_of (link : Bs4.element) : string := Bs4.get_text "" link.

(** A link the loop makes a record of. *)
Definition kept (link : Bs4.element) : bool :=
  is_publication_link link
  && negb (Py.contains "Record Details" (title_text_of link)).

Definition file_format_of (soup : Bs4.node) (link : Bs4.element) : string :=
  match Bs4.find_next soup "span" link with
  | Some next_span =>
      if Py.contains "font-size:smaller" (tag_str (snd next_span))
      then Bs4.get_text "" next_span
      else "pdf"
  | None => "pdf"
  end.

Definition url_of (link : Bs4.element) : string :=
  if Py.startswith "http" (href_of link) then href_of link
  else "https://armypubs.army.mil" ++ href_of link.

(** The block under [if description_td:]. *)
Definition describe (soup : Bs4.node) (description_td : Bs4.element)
    (st : locals) : outcome locals :=
  obind (next_cell soup description_td) (fun next_td =>
  match next_td with
  | Some cell =>
      let full_text := Bs4.get_text "" cell in
      let date_text' :=
        or_default "" (Re.re_search Re.month_day_year full_text) in
      let description' :=
        if Py.contains CAC_PHRASE full_text then CAC_DESCRIPTION
        else full_text in
      Return (Locals (results st) (Some date_text') (Some description'))
  | None => Return (Locals (results st) (Some "") (Some ""))
  end).

(** One iteration of [for i, link in enumerate(links)]. *)
Definition loop_body (soup : Bs4.node) (st : locals) (link : Bs4.element)
  : outcome locals :=
  if is_publication_link link then
    let title_text := title_text_of link in
    if Py.contains "Record Details" title_text then Return st
    else
      let title_parts := Py.split_once Py.em_dash_sep title_text in
      let doc_number := fst title_parts in
      let doc_title := or_default "" (snd title_parts) in
      let doc_type := doc_type_of doc_number in
      let file_format := file_format_of soup link in
      obind (match Bs4.find_parent soup "td" link with
             | Some description_td => describe soup description_td st
             | None => Return st
             end) (fun st =>
      obind (read_local "date_text" (date_text st)) (fun date_text =>
      obind (read_local "description" (description_var st)) (fun description =>
      let result :=
        Publication doc_number doc_title doc_type file_format date_text
                    description (url_of link) in
      Return (Locals (results st ++ [result])%list
                     (Some date_text) (Some description)))))
  else Return st.

(** The body of the function once the document is parsed. *)
Definition parse_soup (soup : Bs4.node) : M (list publication) :=
  let start := Locals [] None None in          (* [results = []] *)
  match Bs4.find_attr "div" "id" RESULTS_ID ([], soup) with
  | None =>
      print "(parse_search_results) No results table found" ;;;
      ret (results start)
  | Some results_table =>
      let links := Bs4.find_all_with "a" "href" results_table in
      st <- lift (for_each (loop_body soup) start links) ;;
      ret (results st)
  end.

Definition parse_search_results (html_content : string)
  : M (list publication) :=
  parse_soup (BeautifulSoup html_content).

(** *** extract_pdf_text *)

(** [for page_num in range(len(pages)): text += page.extract_text() + "\n"] *)
Definition add_page (text : string) (page : outcome string) : outcome string :=
  obind page (fun page_text => Return (text ++ page_text ++ Py.nl)).

Definition extract_pdf_text (doc_content : content) : M (option string) :=
  try_except
    (match doc_content with
     | Str _ =>
         print "(extract_pdf_text) Content appears to be HTML, not PDF bytes" ;;;
         ret None
     | Bytes b =>
         pages <- lift (PdfReader b) ;;
         text <- lift (for_each add_page "" pages) ;;
         print ("(extract_pdf_text) Successfully extracted text from "
                ++ Py.str_of_nat (length pages) ++ " pages") ;;;
         ret (Some (Py.strip text))
     end)
    (fun e =>
       print ("(extract_pdf_text) Error extracting PDF text: " ++ str_of_exn e) ;;;
       ret None).

(** *** extract_epub_text *)

(** The text of one item of the book: the markup parsed, the script and
    style elements removed, the strings joined by newlines. *)
Definition item_text (item : epub_item) : string :=
  let soup := BeautifulSoup (item_content item) in
  let soup := Bs4.decompose_all ["script"; "style"] soup in
  Bs4.get_text Py.nl ([], soup).

(** One iteration of [for item in book.get_items()]. *)
Definition add_item (text_content : list string) (item : epub_item)
  : list string :=
  if Nat.eqb (item_type item) ITEM_DOCUMENT then
    let text := item_text item in
    if Py.truthy (Py.strip text) then (text_content ++ [text])%list
    else text_content
  else text_content.

(** The temporary file is removed in a [finally] whose own failure is
    ignored; it touches nothing the model keeps. *)
Definition extract_epub_text (doc_content : content) : M (option string) :=
  try_except
    (match doc_content with
     | Str _ =>
         print "(extract_epub_text) Content appears to be HTML, not EPUB bytes" ;;;
         ret None
     | Bytes b =>
         temp_path <- lift (NamedTemporaryFile b) ;;
         items <- lift (read_epub temp_path b) ;;
         let text_content := fold_left add_item items [] in
         let full_text := Py.join (Py.nl ++ Py.nl) text_content in
         print ("(extract_epub_text) Successfully extracted text from "
                ++ Py.str_of_nat (length text_content) ++ " chapters") ;;;
         ret (Some (Py.strip full_text))
     end)
    (fun e =>
       print ("(extract_epub_text) Error extracting EPUB text: "
              ++ str_of_exn e) ;;;
       ret None).

(** *** extract_document_text

    The first half of the function assigns [format_type] in three steps,
    each one guarded by the value the previous steps left. *)

(** [if file_format: ...] *)
Definition format_from_hint (file_format : option string)
    (format_type : option format) : option format :=
  match file_format with
  | Some hint =>
      if Py.truthy hint then
        let format_lower := Py.lower hint in
        if Py.contains "pdf" format_lower then Some pdf
        else if Py.contains "epub" format_lower
                || Py.contains "ebook" format_lower then Some epub
        else format_type
      else format_type
  | None => format_type
  end.

Definition is_none {A} (o : option A) : bool :=
  match o with None => true | Some _ => false end.

(** [if not format_type and url: ...] *)
Definition format_from_url (url : option string)
    (format_type : option format) : option format :=
  match url with
  | Some u =>
      if is_none format_type && Py.truthy u then
        let url_lower := Py.lower u in
        if Py.endswith ".pdf" url_lower then Some pdf
        else if Py.endswith ".epub" url_lower then Some epub
        else
          match guess_type u with
          | Some mime_type =>
              if String.eqb mime_type "application/pdf" then Some pdf
              else if String.eqb mime_type "application/epub+zip"
                   then Some epub
              else format_type
          | None => format_type
          end
      else format_type
  | None => format_type
  end.

(** [if not format_type and isinstance(doc_content, bytes): ...] *)
Definition format_from_content (doc_content : content)
    (format_type : option format) : option format :=
  match doc_content with
  | Bytes b =>
      if is_none format_type then
        if Py.startswith "%PDF" b then Some pdf
        else if Py.startswith "PK" b
                && Py.contains "epub" (Py.lower (Py.slice_to 1024 b))
             then Some epub
        else format_type
      else format_type
  | Str _ => format_type
  end.

(** The value of [format_type] when the function prints it. *)
Definition detect_format (doc_content : content)
    (file_format url : option string) : option format :=
  let format_type := None in
  let format_type := format_from_hint file_format format_type in
  let format_type := format_from_url url format_type in
  let format_type := format_from_content doc_content format_type in
  format_type.

Definition extract_document_text (doc_content : content)
    (file_format url : option string) : M (option string) :=
  let format_type := detect_format doc_content file_format url in
  print ("(extract_document_text) Detected format: "
         ++ str_of_format format_type) ;;;
  match format_type with
  | Some pdf => extract_pdf_text doc_content
  | Some epub => extract_epub_text doc_content
  | None =>
      print ("(extract_document_text) Unsupported or unknown format: "
             ++ str_of_format format_type) ;;;
      ret None
  end.

(** *** get_document_text_from_url *)

Definition document_headers : list (string * string) :=
  [("User-Agent", USER_AGENT);
   ("Accept", "application/pdf,application/epub+zip,*/*")].

(** The test of the handler: the text of the exception, in lower case,
    has both words. *)
Definition indicates_cac (e : exn) : bool :=
  Py.contains "redirect" (Py.lower (str_of_exn e))
  && Py.contains "federation.eams.army" (Py.lower (str_of_exn e)).

Definition get_document_text_from_url (doc_url : string)
    (file_format : option string) : M (option string) :=
  try_except
    (print ("(get_document_text_from_url) Downloading document: " ++ doc_url) ;;;
     response <- lift (client_get doc_url document_headers 60) ;;
     lift (raise_for_status response) ;;;
     let content_type := or_default "" (content_type_header response) in
     print ("(get_document_text_from_url) Content-Type: " ++ content_type) ;;;
     extract_document_text (Bytes (response_content response)) file_format
                           (Some doc_url))
    (fun e =>
       print ("(get_document_text_from_url) Error downloading/processing document: "
              ++ str_of_exn e) ;;;
       if indicates_cac e then ret (Some CAC_REQUIRED) else ret None).

(** *** get_publication *)

(** [publication_url.split('.')[-1] if '.' in publication_url else None] *)
Definition filetype_of (publication_url : string) : option string :=
  if Py.contains "." publication_url
  then Some (last (Py.split_char "." publication_url) "")
  else None.

Definition get_publication (publication_url : string) : M string :=
  let filetype := filetype_of publication_url in
  document_text <- get_document_text_from_url publication_url filetype ;;
  match document_text with
  | Some text =>
      if Py.truthy text then
        print ("Text extracted successfully ("
               ++ Py.str_of_nat (String.length text) ++ " characters)") ;;;
        print "First 500 characters:" ;;;
        print (if Nat.ltb 500 (String.length text)
               then Py.slice_to 500 text ++ "..."
               else text) ;;;
        ret text
      else ret FAILED_TO_EXTRACT
  | None => ret FAILED_TO_EXTRACT
  end.

End App.

(** ** The search tool *)

(** [urllib.parse.quote] with its default arguments, on text in UTF-8: a
    byte that is a letter, a digit, one of [_.-~] or the slash stays, any
    other byte becomes a percent sign and two upper-case hexadecimal
    digits. *)

Module Urllib.

Definition always_safe (c : ascii) : bool :=
  Py.in_range 65 90 c || Py.in_range 97 122 c || Py.in_range 48 57 c
  || Ascii.eqb c "_" || Ascii.eqb c "." || Ascii.eqb c "-" || Ascii.eqb c "~".

Definition safe (c : ascii) : bool := always_safe c || Ascii.eqb c "/".

Definition hex_digit (n : nat) : ascii :=
  if Nat.ltb n 10 then ascii_of_nat (48 + n) else ascii_of_nat (55 + n).

(** ['%{:02X}'.format(b)] *)
Definition percent (c : ascii) : string :=
  String "%" (String (hex_digit (nat_of_ascii c / 16))
                     (String (hex_digit (nat_of_ascii c mod 16)) EmptyString)).

Definition quote_byte (c : ascii) : string :=
  if safe c then String c EmptyString else percent c.

Fixpoint quote (s : string) : string :=
  match s with
  | EmptyString => EmptyString
  | String c s' => quote_byte c ++ quote s'
  end.

End Urllib.

Definition ARMY_PUBS_API_BASE : string :=
  "https://armypubs.army.mil/ProductMaps/PubForm/ContentSearch.aspx".

Definition UNABLE_TO_FETCH : string :=
  "Unable to fetch search results. Please try again later.".

(** What [search_pubs] returns: the message, or the list of records. *)
Inductive search_result : Type :=
| Message (text : string)
| Publications (records : list publication).

Section Search.

Variable BeautifulSoup : string -> Bs4.node.
Variable tag_str : Bs4.node -> string.
Variable client_get : string -> list (string * string) -> nat
                      -> outcome response.
Variable status_code : response -> nat.
    (* [response.status_code] *)
Variable response_text : response -> string.
    (* [response.text], the body decoded *)

(** *** make_pubs_request *)

Definition pubs_headers : list (string * string) :=
  [("User-Agent", USER_AGENT);
   ("Accept",
    "text/html,application/xhtml+xml,application/xml;q=0.9,*/*;q=0.8")].

Definition make_pubs_request (url : string) : M (option string) :=
  try_except
    (print ("(make_pubs_request) Requesting Army publications API: " ++ url) ;;;
     response <- lift (client_get url pubs_headers 30) ;;
     print ("(make_pubs_request) Response status code: "
            ++ Py.str_of_nat (status_code response)) ;;;
     lift (raise_for_status response) ;;;
     ret (Some (response_text response)))
    (fun e =>
       print ("(make_pubs_request) Error making request: " ++ str_of_exn e) ;;;
       ret None).

(** *** search_pubs *)

(** [f"{ARMY_PUBS_API_BASE}?q={encoded_query}"] *)
Definition search_url (query : string) : string :=
  let encoded_query := Urllib.quote query in
  ARMY_PUBS_API_BASE ++ "?q=" ++ encoded_query.

Definition search_pubs (query : string) : M search_result :=
  let url := search_url query in
  print ("(search_pubs) Search URL: " ++ url) ;;;
  html_content <- make_pubs_request url ;;
  match html_content with
  | Some html =>
      if Py.truthy html then
        results <- parse_search_results BeautifulSoup tag_str html ;;
        print ("(search_pubs) Found " ++ Py.str_of_nat (length results)
               ++ " publications") ;;;
        ret (Publications results)
      else ret (Message UNABLE_TO_FETCH)
  | None => ret (Message UNABLE_TO_FETCH)
  end.

End Search.

(** * Specification-side definitions

    The notions the properties are stated with, and the concrete pages and
    library behaviours they are evaluated on. *)

Module Spec.

Fixpoint take_while (c : ascii -> bool) (s : string) : string :=
  match s with
  | String a s' => if c a then String a (take_while c s') else EmptyString
  | EmptyString => EmptyString
  end.

Fixpoint drop_while (c : ascii -> bool) (s : string) : string :=
  match s with
  | String a s' => if c a then drop_while c s' else s
  | EmptyString => EmptyString
  end.

Fixpoint all_chars (c : ascii -> bool) (s : string) : bool :=
  match s with
  | String a s' => c a && all_chars c s'
  | EmptyString => true
  end.

(** [run] is the maximal leading run of upper-case letters of [s]: [s] is
    [run] followed by a rest that does not start with such a letter. *)
Definition leading_upper_run (run s : string) : Prop :=
  exists rest,
    s = run ++ rest /\ all_chars Py.isupper run = true /\
    (forall a r, rest = String a r -> Py.isupper a = false).

(** The record the loop makes of a kept link, given the values it reads
    from [date_text] and [description]. *)
Definition record_of (tag_str : Bs4.node -> string) (soup : Bs4.node)
    (link : Bs4.element) (d x : string) : publication :=
  let title_parts := Py.split_once Py.em_dash_sep (title_text_of link) in
  Publication (fst title_parts) (or_default "" (snd title_parts))
              (doc_type_of (fst title_parts)) (file_format_of tag_str soup link)
              d x (url_of link).

(** The locals after the [if description_td:] block of an iteration. *)
Definition after_cell (soup : Bs4.node) (st : locals) (link : Bs4.element)
  : outcome locals :=
  match Bs4.find_parent soup "td" link with
  | Some description_td => describe soup description_td st
  | None => Return st
  end.

(** The text of the pages, each followed by a newline. *)
Fixpoint page_lines (texts : list string) : string :=
  match texts with
  | [] => EmptyString
  | t :: texts' => t ++ Py.nl ++ page_lines texts'
  end.

(** An item of a book that adds a chapter: a document with some text. *)
Definition has_text (BeautifulSoup : string -> Bs4.node) (item : epub_item)
  : bool :=
  Nat.eqb (item_type item) ITEM_DOCUMENT
  && Py.truthy (Py.strip (item_text BeautifulSoup item)).

(** The download of [doc_url] fails with [e]: [client.get] raises it, or
    [raise_for_status] does on the response received. *)
Definition transport_failure
    (client_get : string -> list (string * string) -> nat -> outcome response)
    (doc_url : string) (e : exn) : Prop :=
  client_get doc_url document_headers 60 = Raise e \/
  exists r, client_get doc_url document_headers 60 = Return r
            /\ raise_for_status r = Raise e.

(** *** The format resolver, in the words of its specification

    Three signals, tried in order; the first that decides wins.  The magic
    number asked of a ZIP container is a parameter. *)

Definition PDF_MAGIC : string := "%PDF".

(** The signature of a ZIP local file header: P K 03 04. *)
Definition ZIP_LOCAL_FILE_HEADER : string :=
  String "P" (String "K" (String (ascii_of_nat 3)
    (String (ascii_of_nat 4) EmptyString))).

Definition hint_signal (hint : option string) : option format :=
  match hint with
  | Some h =>
      if Py.contains "pdf" (Py.lower h) then Some pdf
      else if Py.contains "epub" (Py.lower h)
              || Py.contains "ebook" (Py.lower h) then Some epub
      else None
  | None => None
  end.

Definition mime_signal (mime_type : option string) : option format :=
  match mime_type with
  | Some m =>
      if String.eqb m "application/pdf" then Some pdf
      else if String.eqb m "application/epub+zip" then Some epub
      else None
  | None => None
  end.

Definition url_signal (guess_type : string -> option string)
    (url : option string) : option format :=
  match url with
  | Some u =>
      if Py.endswith ".pdf" (Py.lower u) then Some pdf
      else if Py.endswith ".epub" (Py.lower u) then Some epub
      else mime_signal (guess_type u)
  | None => None
  end.

Definition content_signal (zip_magic bytes_prefix : string) : option format :=
  if Py.startswith PDF_MAGIC bytes_prefix then Some pdf
  else if Py.startswith zip_magic bytes_prefix
          && Py.contains "epub" (Py.lower (Py.slice_to 1024 bytes_prefix))
       then Some epub
  else None.

Fixpoint first_signal (signals : list (option format)) : option format :=
  match signals with
  | [] => None
  | Some f :: _ => Some f
  | None :: signals' => first_signal signals'
  end.

Definition resolve (zip_magic : string) (guess_type : string -> option string)
    (hint url : option string) (bytes_prefix : string) : option format :=
  first_signal [hint_signal hint; url_signal guess_type url;
                content_signal zip_magic bytes_prefix].

End Spec.

(** ** Pages and library behaviours used as concrete inputs *)

Module Pages.

Import Bs4.

Definition document (body : list node) : node := Tag "[document]" [] body.

Definition results_div (body : list node) : node :=
  Tag "div" [("id", RESULTS_ID)] body.

Definition anchor (href text : string) : node :=
  Tag "a" [("href", href)] [NavigableString text].

(** A publication link directly inside the results container. *)
Definition lone_anchor_html : string :=
  "<div id='MainContent_tblContentSearchResults'><a href='/epubs/a.pdf'>AR 1</a></div>".

Definition lone_anchor : node :=
  document [results_div [anchor "/epubs/a.pdf" "AR 1"]].

(** A publication link in a cell that is in no row. *)
Definition cell_without_row_html : string :=
  "<div id='MainContent_tblContentSearchResults'><td><a href='/epubs/a.pdf'>AR 1</a></td></div>".

Definition cell_without_row : node :=
  document [results_div [Tag "td" [] [anchor "/epubs/a.pdf" "AR 1"]]].

(** A link in a table row with its date cell, then a link outside any
    table. *)
Definition row_then_anchor_html : string :=
  "<div id='MainContent_tblContentSearchResults'><table><tr><td><a href='/epubs/a.pdf'>AR 1</a></td><td>May 13, 2019 Leaves</td></tr></table><a href='/epubs/b.pdf'>TC 2</a></div>".

Definition row_then_anchor : node :=
  document
    [results_div
       [Tag "table" []
          [Tag "tr" []
             [Tag "td" [] [anchor "/epubs/a.pdf" "AR 1"];
              Tag "td" [] [NavigableString "May 13, 2019 Leaves"]]];
        anchor "/epubs/b.pdf" "TC 2"]].

(** A row whose second cell carries the credential notice. *)
Definition cac_cell : node :=
  Tag "td" []
    [NavigableString
       "Jan 5, 2020 You need a Common Access Card (CAC) to view it. "].

Definition cac_page : node :=
  document
    [results_div
       [Tag "table" []
          [Tag "tr" []
             [Tag "td" [] [anchor "/epubs/c.pdf" "FM 3"]; cac_cell]]]].

(** A page with no results container. *)
Definition no_container : node :=
  document [Tag "p" [] [NavigableString "No results"]].

(** A serialisation that shows the [style] attribute only; enough for the
    test on [str(next_span)]. *)
Definition style_of (n : node) : string := or_default "" (attr "style" n).

(** A parser that knows the pages above. *)
Definition parse_known (markup : string) : node :=
  if String.eqb markup lone_anchor_html then lone_anchor
  else if String.eqb markup cell_without_row_html then cell_without_row
  else if String.eqb markup row_then_anchor_html then row_then_anchor
  else document (if Py.truthy markup then [NavigableString markup] else []).

End Pages.

Module Libs.

(** [mimetypes.guess_type] on the two extensions the program asks about. *)
Definition guess_by_suffix (url : string) : option string :=
  if Py.endswith ".pdf" url then Some "application/pdf"
  else if Py.endswith ".epub" url then Some "application/epub+zip"
  else None.

(** What httpx reports for a redirect to the federation login. *)
Definition redirect_message : string :=
  "Redirect response '302 Found' for url 'https://armypubs.army.mil/epubs/DR_pubs/DR_d/ARN1.pdf'"
  ++ Py.nl ++
  "Redirect location: 'https://federation.eams.army.mil/pool/sso/authenticate'".

Definition redirected : response :=
  Response (Raise (LibraryError redirect_message)) (Some "text/html") "".

Definition get_redirected (url : string) (headers : list (string * string))
    (timeout : nat) : outcome response := Return redirected.

(** A server that answers every request with the same bytes. *)
Definition get_bytes (b : string) (url : string)
    (headers : list (string * string)) (timeout : nat) : outcome response :=
  Return (Response (Return tt) (Some "application/pdf") b).

(** A PDF decoder: two known documents, everything else is rejected. *)
Definition read_pdf (b : string) : outcome (list (outcome string)) :=
  if String.eqb b "%PDF-hello-world" then Return [Return "Hello"; Return "World"]
  else if String.eqb b "%PDF-no-pages" then Return []
  else Raise (LibraryError "EOF marker not found").

Definition temp_file (b : string) : outcome string := Return "/tmp/tmp0.epub".

(** An EPUB decoder: a book with a style sheet and an empty chapter, and
    rejection of everything else. *)
Definition read_book (path b : string) : outcome (list epub_item) :=
  if String.eqb b "PK-empty-book"
  then Return [EpubItem 2 "body { margin: 0 }"; EpubItem ITEM_DOCUMENT ""]
  else Raise (LibraryError "File is not a zip file").

End Libs.

(** ** Notions used for the further properties *)

Module SpecMore.

(** The strings a pattern describes: one segment per item, of characters of
    the item's class, as many as its bounds allow. *)
Definition within (hi : option nat) (n : nat) : Prop :=
  match hi with
  | Some m => n <= m
  | None => True
  end.

Inductive conforms : Re.pattern -> string -> Prop :=
| conforms_nil : conforms [] EmptyString
| conforms_cons (i : Re.item) (p : Re.pattern) (seg m : string) :
    Spec.all_chars (Re.cls i) seg = true ->
    Re.rmin i <= String.length seg ->
    within (Re.rmax i) (String.length seg) ->
    conforms p m ->
    conforms (i :: p) (seg ++ m).

(** Text of the ASCII range, on which the character classes of the model
    are the ones the program uses. *)
Definition is_ascii (c : ascii) : bool := Nat.ltb (nat_of_ascii c) 128.

Definition ascii_text (s : string) : bool := Spec.all_chars is_ascii s.

(** A tree all of whose strings read by [get_text] are ASCII text. *)
Fixpoint ascii_tree (n : Bs4.node) {struct n} : bool :=
  match n with
  | Bs4.NavigableString s => ascii_text s
  | Bs4.OtherString _ => true
  | Bs4.Tag _ _ cs =>
      (fix all (l : list Bs4.node) {struct l} : bool :=
         match l with
         | [] => true
         | c :: l' => ascii_tree c && all l'
         end) cs
  end.

(** The date and the description the loop reads off the text of a cell. *)
Definition date_from (full_text : string) : string :=
  or_default "" (Re.re_search Re.month_day_year full_text).

Definition description_from (full_text : string) : string :=
  if Py.contains CAC_PHRASE full_text then CAC_DESCRIPTION else full_text.

(** The date and the description an iteration assigns for a link that has
    an enclosing cell, [None] when it has none or when looking for the next
    cell raises. *)
Definition described (soup : Bs4.node) (link : Bs4.element)
  : option (string * string) :=
  match Bs4.find_parent soup "td" link with
  | Some description_td =>
      match next_cell soup description_td with
      | Return (Some cell) =>
          Some (date_from (Bs4.get_text "" cell),
                description_from (Bs4.get_text "" cell))
      | Return None => Some (EmptyString, EmptyString)
      | Raise _ => None
      end
  | None => None
  end.

Definition is_described (soup : Bs4.node) (link : Bs4.element) : bool :=
  match described soup link with Some _ => true | None => false end.

(** The record of a link from what its own cell says. *)
Definition own_record (tag_str : Bs4.node -> string) (soup : Bs4.node)
    (link : Bs4.element) : publication :=
  match described soup link with
  | Some (d, x) => Spec.record_of tag_str soup link d x
  | None => Spec.record_of tag_str soup link EmptyString EmptyString
  end.

(** The links below the results container, in document order. *)
Definition links_of (soup : Bs4.node) : list Bs4.element :=
  match Bs4.find_attr "div" "id" RESULTS_ID ([], soup) with
  | Some results_table => Bs4.find_all_with "a" "href" results_table
  | None => []
  end.

(** The values the loop variables [date_text] and [description] hold, when
    bound, satisfy [Pd] and [Px]. *)
Definition values_ok (Pd Px : string -> Prop) (st : locals) : Prop :=
  (forall d, date_text st = Some d -> Pd d)
  /\ (forall x, description_var st = Some x -> Px x).

(** A call that returns, whatever was printed before, a value that
    satisfies [Q]: it never raises. *)
Definition returns_with {A} (m : M A) (Q : A -> Prop) : Prop :=
  forall w, exists a w', m w = (Return a, w') /\ Q a.

(** A text with no white space at either end. *)
Definition stripped (t : string) : Prop := Py.strip t = t.

(** A text that does not start with white space. *)
Definition clean_start (s : string) : Prop :=
  match s with
  | EmptyString => True
  | String c _ => Py.isspace c = false
  end.

Definition stripped_if_any (o : option string) : Prop :=
  match o with
  | Some t => stripped t
  | None => True
  end.

(** [date_text] and [description] are bound together or not at all. *)
Definition bound_together (st : locals) : Prop :=
  is_none (date_text st) = is_none (description_var st).

(** The request for a results page fails with [e]. *)
Definition page_failure
    (client_get : string -> list (string * string) -> nat -> outcome response)
    (url : string) (e : exn) : Prop :=
  client_get url pubs_headers 30 = Raise e \/
  exists r, client_get url pubs_headers 30 = Return r
            /\ raise_for_status r = Raise e.

(** The value of a hexadecimal digit. *)
Definition hex_value (c : ascii) : option nat :=
  let n := nat_of_ascii c in
  if Py.in_range 48 57 c then Some (n - 48)
  else if Py.in_range 65 70 c then Some (n - 55)
  else if Py.in_range 97 102 c then Some (n - 87)
  else None.

(** The inverse of [Urllib.quote]: a percent sign and two hexadecimal digits
    are one byte. *)
Fixpoint unquote (s : string) : string :=
  match s with
  | EmptyString => EmptyString
  | String c s1 =>
      let keep := String c (unquote s1) in
      if Ascii.eqb c "%" then
        match s1 with
        | String h (String l s3) =>
            match hex_value h, hex_value l with
            | Some a, Some b => String (ascii_of_nat (16 * a + b)) (unquote s3)
            | _, _ => keep
            end
        | _ => keep
        end
      else keep
  end.

(** A character other than the dot. *)
Definition not_dot (c : ascii) : bool := negb (Ascii.eqb c ".").

(** The characters of an encoded query: the ones [quote] leaves alone, and
    the percent sign. *)
Definition url_char (c : ascii) : bool := Urllib.safe c || Ascii.eqb c "%".

(** An element of an EPUB book that is a document. *)
Definition is_document (item : epub_item) : bool :=
  Nat.eqb (item_type item) ITEM_DOCUMENT.

(** No tag named in [names] at or below the elements of a list. *)
Definition none_named (names : list string) (l : list Bs4.element) : Prop :=
  Forall (fun d => existsb (fun name => Bs4.is_tag name (snd d)) names = false)
         l.

End SpecMore.

(** Further library behaviours used as concrete inputs. *)
Module LibsMore.

Definition code_200 (r : response) : nat := 200.

Definition body_of (r : response) : string := response_content r.

(** A server that answers every request with the same page. *)
Definition get_page (html : string) (url : string)
    (headers : list (string * string)) (timeout : nat) : outcome response :=
  Return (Response (Return tt) (Some "text/html") html).

(** A connection that cannot be opened. *)
Definition get_refused (url : string) (headers : list (string * string))
    (timeout : nat) : outcome response :=
  Raise (LibraryError "All connection attempts failed").

(** A PDF decoder whose second page cannot be read. *)
Definition read_pdf_bad_page (b : string) : outcome (list (outcome string)) :=
  Return [Return "Hello"; Raise (LibraryError "cannot decode page");
          Return "World"].

(** A results page of two rows: a publication with its date cell and a
    link to its record details, then a publication behind the credential
    wall, with an absolute address. *)
Definition table_html : string :=
  "<div id='MainContent_tblContentSearchResults'><table><tr><td><a href='/epubs/DR_a/ARN1.pdf'>TC 3-21.76 - Ranger Handbook</a><span style='font-size:smaller'> PDF </span><a href='/epubs/details?id=1'>Record Details</a></td><td>Apr 26, 2017 Ranger training</td></tr><tr><td><a href='https://armypubs.army.mil/pub/eforms/DR_a/F1.pdf'>123</a></td></tr><tr><td>You need a Common Access Card (CAC) to view it</td></tr></table><a href='/help'>Help</a></div>".

Definition table_page : Bs4.node :=
  Pages.document
    [Pages.results_div
       [Bs4.Tag "table" []
          [Bs4.Tag "tr" []
             [Bs4.Tag "td" []
                [Pages.anchor "/epubs/DR_a/ARN1.pdf"
                              "TC 3-21.76 - Ranger Handbook";
                 Bs4.Tag "span" [("style", "font-size:smaller")]
                         [Bs4.NavigableString " PDF "];
                 Pages.anchor "/epubs/details?id=1" "Record Details"];
              Bs4.Tag "td" [] [Bs4.NavigableString "Apr 26, 2017 Ranger training"]];
           Bs4.Tag "tr" []
             [Bs4.Tag "td" []
                [Pages.anchor "https://armypubs.army.mil/pub/eforms/DR_a/F1.pdf"
                              "123"]];
           Bs4.Tag "tr" []
             [Bs4.Tag "td" []
                [Bs4.NavigableString
                   "You need a Common Access Card (CAC) to view it"]]];
        Pages.anchor "/help" "Help"]].

Definition table_records : list publication :=
  [Publication "TC 3-21.76 - Ranger Handbook" "" "TC" "PDF" "Apr 26, 2017"
               "Apr 26, 2017 Ranger training"
               "https://armypubs.army.mil/epubs/DR_a/ARN1.pdf";
   Publication "123" "" "Unknown" "pdf" "" CAC_DESCRIPTION
               "https://armypubs.army.mil/pub/eforms/DR_a/F1.pdf"].

Definition parse_pages (markup : string) : Bs4.node :=
  if String.eqb markup table_html then table_page
  else Pages.parse_known markup.

(** A parser that finds a script inside the body of every chapter. *)
Definition parse_chapter (markup : string) : Bs4.node :=
  Pages.document
    [Bs4.Tag "body" []
       [Bs4.Tag "script" [] [Bs4.OtherString "init()"];
        Bs4.Tag "p" [] [Bs4.NavigableString markup;
                        Bs4.Tag "style" [] [Bs4.OtherString "p {}"]]]].

(** Two EPUB decoders that agree on the documents of a book and differ in
    what else it holds. *)
Definition read_book_with_images (path b : string)
  : outcome (list epub_item) :=
  Return [EpubItem 1 "cover"; EpubItem ITEM_DOCUMENT "Chapter one";
          EpubItem 2 "style"; EpubItem ITEM_DOCUMENT "Chapter two"].

Definition read_book_plain (path b : string) : outcome (list epub_item) :=
  Return [EpubItem ITEM_DOCUMENT "Chapter one";
          EpubItem ITEM_DOCUMENT "Chapter two"].

End LibsMore.

(** * Properties *)

Import Spec.

(** ** Strings and the matcher *)

Module PyFacts.

Lemma take_drop_while c s : s = take_while c s ++ drop_while c s.
Proof.
  induction s as [|a s IH]; simpl; [reflexivity|].
  destruct (c a); simpl; [now rewrite <- IH | reflexivity].
Qed.

Lemma take_while_all c s : all_chars c (take_while c s) = true.
Proof.
  induction s as [|a s IH]; simpl; [reflexivity|].
  destruct (c a) eqn:E; simpl; [now rewrite E | reflexivity].
Qed.

Lemma drop_while_head c s a r : drop_while c s = String a r -> c a = false.
Proof.
  induction s as [|b s IH]; simpl; [discriminate|].
  destruct (c b) eqn:E; [exact IH|].
  intros H; injection H as -> _; exact E.
Qed.

Lemma length_take_drop c s :
  String.length s
  = String.length (take_while c s) + String.length (drop_while c s).
Proof.
  rewrite (take_drop_while c s) at 1.
  generalize (take_while c s) (drop_while c s).
  intros x y; induction x as [|a x IH]; simpl; [reflexivity | now rewrite IH].
Qed.

Lemma substring_take_while c s :
  substring 0 (String.length (take_while c s)) s = take_while c s.
Proof.
  induction s as [|a s IH]; simpl; [reflexivity|].
  destruct (c a); simpl; [now rewrite IH | reflexivity].
Qed.

(** A starred class followed by nothing takes the whole run. *)
Lemma rep_star c s k :
  (forall r, k r = Some r) ->
  Re.rep c 0 None s k = Some (drop_while c s).
Proof.
  intros Hk; induction s as [|a s IH]; simpl; [apply Hk|].
  destruct (c a); simpl; [now rewrite IH | apply Hk].
Qed.

Lemma rep_plus c s k :
  (forall r, k r = Some r) ->
  Re.rep c 1 None s k =
  match s with
  | String a s' => if c a then Some (drop_while c s') else None
  | EmptyString => None
  end.
Proof.
  intros Hk; destruct s as [|a s]; simpl; [reflexivity|].
  destruct (c a); simpl; [now rewrite rep_star | reflexivity].
Qed.

Lemma re_match_plus c s :
  Re.re_match [Re.plus c] s =
  if Py.truthy (take_while c s) then Some (take_while c s) else None.
Proof.
  unfold Re.re_match, Re.match_here, Re.plus; simpl Re.cls; simpl Re.rmin;
    simpl Re.rmax.
  rewrite rep_plus by reflexivity.
  destruct s as [|a s]; simpl; [reflexivity|].
  destruct (c a) eqn:E; simpl; [|reflexivity].
  unfold Re.matched. f_equal.
  replace (String.length (String a s) - String.length (drop_while c s))
    with (S (String.length (take_while c s))).
  - simpl. now rewrite substring_take_while.
  - change (String.length (String a s)) with (S (String.length s)).
    pose proof (length_take_drop c s). lia.
Qed.

End PyFacts.

(** ** The model on small inputs *)

Example date_found :
  Re.re_search Re.month_day_year "Published Feb 11, 2025 by HQDA"
  = Some "Feb 11, 2025".
Proof. reflexivity. Qed.

Example date_needs_a_comma :
  Re.re_search Re.month_day_year "Feb 2025" = None.
Proof. reflexivity. Qed.

Example title_split :
  Py.split_once Py.em_dash_sep ("TC 3-21.76" ++ Py.em_dash_sep ++ "Ranger Handbook")
  = ("TC 3-21.76", Some "Ranger Handbook").
Proof. reflexivity. Qed.

Example strip_both_ends : Py.strip ("  Hello" ++ Py.nl) = "Hello".
Proof. reflexivity. Qed.

Example filetype_is_last_field :
  filetype_of "https://armypubs.army.mil/epubs/DR_a/ARN1.pdf" = Some "pdf".
Proof. reflexivity. Qed.

Example row_with_date_cell :
  result_of (parse_soup Pages.style_of Pages.cac_page) []
  = Return [Publication "FM 3" "" "FM" "pdf" "Jan 5, 2020" CAC_DESCRIPTION
                        "https://armypubs.army.mil/epubs/c.pdf"].
Proof. reflexivity. Qed.

Example page_without_container :
  parse_soup Pages.style_of Pages.no_container []
  = (Return [], ["(parse_search_results) No results table found"]).
Proof. reflexivity. Qed.

(** ** The loop of [parse_search_results] *)

Section Loop.

Variable tag_str : Bs4.node -> string.
Variable soup : Bs4.node.

Lemma describe_results td st st' :
  describe soup td st = Return st' -> results st' = results st.
Proof.
  unfold describe. destruct (next_cell soup td) as [[cell|]|e]; simpl;
    intros H; inversion H; reflexivity.
Qed.

Lemma after_cell_results st link st' :
  after_cell soup st link = Return st' -> results st' = results st.
Proof.
  unfold after_cell. destruct (Bs4.find_parent soup "td" link).
  - apply describe_results.
  - intros H; inversion H; reflexivity.
Qed.

Lemma loop_body_skipped st link :
  kept link = false -> loop_body tag_str soup st link = Return st.
Proof.
  unfold kept, loop_body. destruct (is_publication_link link); simpl.
  - intros H. apply negb_false_iff in H. now rewrite H.
  - reflexivity.
Qed.

Lemma loop_body_kept st link :
  kept link = true ->
  loop_body tag_str soup st link =
  obind (after_cell soup st link) (fun st1 =>
  obind (read_local "date_text" (date_text st1)) (fun d =>
  obind (read_local "description" (description_var st1)) (fun x =>
  Return (Locals (results st1 ++ [record_of tag_str soup link d x]) (Some d) (Some x))))).
Proof.
  unfold kept, loop_body. destruct (is_publication_link link); simpl.
  - intros H. apply negb_true_iff in H. rewrite H. reflexivity.
  - discriminate.
Qed.

(** What an iteration that does not raise has done. *)
Lemma loop_body_inv st link st' :
  loop_body tag_str soup st link = Return st' ->
  (kept link = false /\ st' = st) \/
  (kept link = true /\
   exists st1 d x,
     after_cell soup st link = Return st1 /\
     date_text st1 = Some d /\ description_var st1 = Some x /\
     st' = Locals (results st ++ [record_of tag_str soup link d x]) (Some d) (Some x)).
Proof.
  destruct (kept link) eqn:K.
  - rewrite (loop_body_kept st link K). intros H. right. split; [reflexivity|].
    destruct (after_cell soup st link) as [st1|e] eqn:A; simpl in H; [|discriminate].
    destruct (date_text st1) as [d|] eqn:D; simpl in H; [|discriminate].
    destruct (description_var st1) as [x|] eqn:X; simpl in H; [|discriminate].
    exists st1, d, x. rewrite <- (@after_cell_results st link st1 A).
    repeat split; try assumption. now inversion H.
  - rewrite (loop_body_skipped st link K). intros H. left.
    split; [reflexivity | now inversion H].
Qed.

(** The loop cut at one of its links. *)
Lemma for_each_app {S X} (body : S -> X -> outcome S) pre post st st' :
  for_each body st (pre ++ post) = Return st' ->
  exists st1, for_each body st pre = Return st1
              /\ for_each body st1 post = Return st'.
Proof.
  revert st. induction pre as [|x pre IH]; simpl; intros st H.
  - exists st. split; [reflexivity | exact H].
  - destruct (body st x) as [st0|e]; simpl in *; [apply IH, H | discriminate].
Qed.

(** The records grow by one for each kept link, at the end. *)
Lemma for_each_results links : forall st st',
  for_each (loop_body tag_str soup) st links = Return st' ->
  exists more, results st' = (results st ++ more)%list
               /\ length more = length (filter kept links).
Proof.
  induction links as [|link links IH]; simpl; intros st st' H.
  - inversion H. exists []. now rewrite app_nil_r.
  - destruct (loop_body tag_str soup st link) as [st0|e] eqn:B; simpl in H;
      [|discriminate].
    destruct (IH _ _ H) as (more & Hm & Hl).
    destruct (loop_body_inv st link B) as [[K ->]|(K & st1 & d & x & _ & _ & _ & ->)];
      rewrite K.
    + exists more. split; assumption.
    + exists (record_of tag_str soup link d x :: more). simpl in *. split.
      * now rewrite Hm, <- app_assoc.
      * now rewrite Hl.
Qed.

(** A property of records that every iteration establishes holds of all
    the records returned. *)
Lemma for_each_records (P : publication -> Prop) links : forall st st',
  (forall link d x, P (record_of tag_str soup link d x)) ->
  Forall P (results st) ->
  for_each (loop_body tag_str soup) st links = Return st' ->
  Forall P (results st').
Proof.
  induction links as [|link links IH]; simpl; intros st st' HP F H.
  - now inversion H; subst.
  - destruct (loop_body tag_str soup st link) as [st0|e] eqn:B; simpl in H;
      [|discriminate].
    apply (IH st0 st' HP); [|exact H].
    destruct (loop_body_inv st link B) as [[K ->]|(K & st1 & d & x & _ & _ & _ & ->)];
      [exact F|].
    simpl. apply Forall_app. split; [exact F | constructor; [apply HP | constructor]].
Qed.

End Loop.

(** What [parse_soup] returns, in terms of its loop. *)
Lemma parse_soup_result tag_str soup w :
  result_of (parse_soup tag_str soup) w =
  match Bs4.find_attr "div" "id" RESULTS_ID ([], soup) with
  | None => Return []
  | Some results_table =>
      obind (for_each (loop_body tag_str soup) (Locals [] None None)
                      (Bs4.find_all_with "a" "href" results_table))
            (fun st => Return (results st))
  end.
Proof.
  unfold result_of, parse_soup.
  destruct (Bs4.find_attr "div" "id" RESULTS_ID ([], soup)); [|reflexivity].
  unfold bind, lift, ret.
  destruct (for_each _ _ _); reflexivity.
Qed.

(** ** The document type *)

Lemma doc_type_of_run doc_number :
  doc_type_of doc_number =
  if Py.truthy (take_while Py.isupper doc_number)
  then take_while Py.isupper doc_number else "Unknown".
Proof.
  unfold doc_type_of. change Re.leading_upper with [Re.plus Py.isupper].
  rewrite PyFacts.re_match_plus.
  destruct (Py.truthy (take_while Py.isupper doc_number)); reflexivity.
Qed.

Lemma take_while_is_leading_run s :
  leading_upper_run (take_while Py.isupper s) s.
Proof.
  exists (drop_while Py.isupper s). split; [apply PyFacts.take_drop_while|].
  split; [apply PyFacts.take_while_all|].
  intros a r. apply PyFacts.drop_while_head.
Qed.

(** There is only one maximal leading run. *)
Lemma leading_upper_run_unique run s :
  leading_upper_run run s -> run = take_while Py.isupper s.
Proof.
  intros (rest & -> & Hall & Hrest).
  induction run as [|a run IH]; simpl in *.
  - destruct rest as [|b r]; simpl; [reflexivity|].
    now rewrite (Hrest b r eq_refl).
  - apply andb_true_iff in Hall as [Ha Hall]. rewrite Ha.
    f_equal. apply IH. exact Hall.
Qed.

(** C6. For every document number, the document type is its maximal leading
    run of upper-case letters, and the word Unknown when that run is empty;
    ATP3-21.8 gives ATP and 123 gives Unknown. *)
Theorem document_type_is_leading_upper_run :
  (forall doc_number,
     exists run,
       leading_upper_run run doc_number /\
       doc_type_of doc_number = if Py.truthy run then run else "Unknown")
  /\ doc_type_of "ATP3-21.8" = "ATP"
  /\ doc_type_of "123" = "Unknown".
Proof.
  split; [|split; reflexivity].
  intros doc_number. exists (take_while Py.isupper doc_number).
  split; [apply take_while_is_leading_run | apply doc_type_of_run].
Qed.

(** Every record [parse_search_results] returns carries the type of its own
    number. *)
Lemma parsed_records_document_type BeautifulSoup tag_str html w rs :
  result_of (parse_search_results BeautifulSoup tag_str html) w = Return rs ->
  Forall (fun r => document_type r = doc_type_of (document_number r)) rs.
Proof.
  unfold parse_search_results. rewrite parse_soup_result.
  destruct (Bs4.find_attr _ _ _ _) as [table|].
  - destruct (for_each _ _ _) as [st|e] eqn:L; simpl; intros H; inversion H.
    subst rs.
    apply for_each_records
      with (tag_str := tag_str) (soup := BeautifulSoup html)
           (links := Bs4.find_all_with "a" "href" table)
           (st := Locals [] None None);
      [reflexivity | constructor | exact L].
  - intros H; inversion H. constructor.
Qed.

(** ** The parser and the output of the process *)

(** What the parser returns does not depend on what was printed before. *)
Lemma parse_result_independent_of_world BeautifulSoup tag_str html w1 w2 :
  result_of (parse_search_results BeautifulSoup tag_str html) w1
  = result_of (parse_search_results BeautifulSoup tag_str html) w2.
Proof.
  unfold parse_search_results. now rewrite !parse_soup_result.
Qed.

(** ** Pages without the expected structure *)

(** Without the results container the parser returns the empty list, after
    one line of output. *)
Lemma parse_without_results_container tag_str soup w :
  Bs4.find_attr "div" "id" RESULTS_ID ([], soup) = None ->
  parse_soup tag_str soup w
  = (Return [], (w ++ ["(parse_search_results) No results table found"])%list).
Proof.
  unfold parse_soup. intros ->. reflexivity.
Qed.

(** A kept link with no enclosing cell: the iteration reads [date_text] and
    [description] as the previous iterations left them. *)
Lemma loop_body_without_cell tag_str soup st link :
  kept link = true ->
  Bs4.find_parent soup "td" link = None ->
  loop_body tag_str soup st link =
  match date_text st, description_var st with
  | Some d, Some x =>
      Return (Locals (results st ++ [record_of tag_str soup link d x])
                     (Some d) (Some x))
  | Some _, None => Raise (UnboundLocalError "description")
  | None, _ => Raise (UnboundLocalError "date_text")
  end.
Proof.
  intros K P. rewrite (loop_body_kept tag_str soup st link K).
  unfold after_cell. rewrite P. simpl.
  destruct (date_text st); simpl; [|reflexivity].
  destruct (description_var st); reflexivity.
Qed.

(** C3. The parser can raise: on a page whose results container holds a
    publication link in a cell that is in no row, the call ends in an
    AttributeError, and on one whose container holds such a link in no cell
    at all, in an UnboundLocalError. *)
Theorem parse_search_results_raises BeautifulSoup tag_str w :
  BeautifulSoup Pages.cell_without_row_html = Pages.cell_without_row ->
  BeautifulSoup Pages.lone_anchor_html = Pages.lone_anchor ->
  result_of (parse_search_results BeautifulSoup tag_str
               Pages.cell_without_row_html) w
  = Raise (AttributeError "find_next_sibling")
  /\ result_of (parse_search_results BeautifulSoup tag_str
                  Pages.lone_anchor_html) w
     = Raise (UnboundLocalError "date_text").
Proof.
  intros H1 H2. unfold parse_search_results. rewrite H1, H2.
  rewrite !parse_soup_result. split; reflexivity.
Qed.

Lemma parse_search_results_raises_witness :
  result_of (parse_search_results Pages.parse_known Pages.style_of
               Pages.cell_without_row_html) []
  = Raise (AttributeError "find_next_sibling")
  /\ result_of (parse_search_results Pages.parse_known Pages.style_of
                  Pages.lone_anchor_html) []
     = Raise (UnboundLocalError "date_text").
Proof.
  apply (parse_search_results_raises Pages.parse_known Pages.style_of []);
    reflexivity.
Defined.

(** C4. A kept link with no enclosing cell does not get empty fields: as the
    first kept link of the page it makes the call raise, and after a link
    that had a date cell its record repeats the date and the description of
    that earlier link. *)
Theorem anchor_without_cell_inherits_or_raises BeautifulSoup tag_str w :
  BeautifulSoup Pages.lone_anchor_html = Pages.lone_anchor ->
  BeautifulSoup Pages.row_then_anchor_html = Pages.row_then_anchor ->
  result_of (parse_search_results BeautifulSoup tag_str
               Pages.lone_anchor_html) w
  = Raise (UnboundLocalError "date_text")
  /\ result_of (parse_search_results BeautifulSoup tag_str
                  Pages.row_then_anchor_html) w
     = Return
         [Publication "AR 1" "" "AR" "pdf" "May 13, 2019"
                      "May 13, 2019 Leaves"
                      "https://armypubs.army.mil/epubs/a.pdf";
          Publication "TC 2" "" "TC" "pdf" "May 13, 2019"
                      "May 13, 2019 Leaves"
                      "https://armypubs.army.mil/epubs/b.pdf"].
Proof.
  intros H1 H2. unfold parse_search_results. rewrite H1, H2.
  rewrite !parse_soup_result. split; reflexivity.
Qed.

Lemma anchor_without_cell_inherits_or_raises_witness :
  result_of (parse_search_results Pages.parse_known Pages.style_of
               Pages.lone_anchor_html) []
  = Raise (UnboundLocalError "date_text")
  /\ exists r1 r2,
       result_of (parse_search_results Pages.parse_known Pages.style_of
                    Pages.row_then_anchor_html) [] = Return [r1; r2]
       /\ date r2 = date r1 /\ description r2 = description r1.
Proof.
  destruct (anchor_without_cell_inherits_or_raises
              Pages.parse_known Pages.style_of [] eq_refl eq_refl) as [R1 R2].
  split; [exact R1|].
  eexists _, _. split; [exact R2|]. split; reflexivity.
Defined.

(** ** The credential notice *)

(** The iteration on a kept link whose date cell carries the notice: it
    appends one record, and the description of that record is the fixed
    sentence. *)
Lemma loop_body_cac tag_str soup st link td cell :
  kept link = true ->
  Bs4.find_parent soup "td" link = Some td ->
  next_cell soup td = Return (Some cell) ->
  Py.contains CAC_PHRASE (Bs4.get_text "" cell) = true ->
  exists d,
    loop_body tag_str soup st link =
    Return (Locals (results st
                    ++ [record_of tag_str soup link d CAC_DESCRIPTION])
                   (Some d) (Some CAC_DESCRIPTION)).
Proof.
  intros K P N C. rewrite (loop_body_kept tag_str soup st link K).
  unfold after_cell, describe. rewrite P, N. simpl. rewrite C. simpl.
  eexists. reflexivity.
Qed.

(** C5. When the cell that describes a kept link contains the credential
    phrase, the record made of that link — the one at the link's rank among
    the kept links — has the fixed sentence as its description. *)
Theorem cac_description_is_canonical
    tag_str soup results_table pre link post td cell rs w :
  Bs4.find_attr "div" "id" RESULTS_ID ([], soup) = Some results_table ->
  Bs4.find_all_with "a" "href" results_table = (pre ++ link :: post)%list ->
  kept link = true ->
  Bs4.find_parent soup "td" link = Some td ->
  next_cell soup td = Return (Some cell) ->
  Py.contains CAC_PHRASE (Bs4.get_text "" cell) = true ->
  result_of (parse_soup tag_str soup) w = Return rs ->
  exists r,
    nth_error rs (length (filter kept pre)) = Some r
    /\ description r = CAC_DESCRIPTION
    /\ url r = url_of link.
Proof.
  intros F L K P N C. rewrite parse_soup_result, F, L.
  destruct (for_each _ _ _) as [st'|e] eqn:E; simpl; [|discriminate].
  intros H; inversion H; subst rs; clear H.
  apply for_each_app in E as (st1 & E1 & E2). simpl in E2.
  destruct (@loop_body_cac tag_str soup st1 link td cell K P N C) as (d & B).
  rewrite B in E2. simpl in E2.
  apply for_each_results in E1 as (m1 & R1 & L1).
  apply for_each_results in E2 as (m2 & R2 & _).
  simpl in R1, R2. rewrite R2, R1, <- L1.
  exists (record_of tag_str soup link d CAC_DESCRIPTION).
  split; [|split; reflexivity].
  rewrite <- app_assoc. rewrite nth_error_app2 by lia.
  now rewrite Nat.sub_diag.
Qed.

Lemma cac_description_is_canonical_witness :
  exists r,
    result_of (parse_soup Pages.style_of Pages.cac_page) [] = Return [r]
    /\ description r = CAC_DESCRIPTION
    /\ url r = "https://armypubs.army.mil/epubs/c.pdf".
Proof.
  destruct (@cac_description_is_canonical
              Pages.style_of Pages.cac_page
              ([0], Pages.results_div
                      [Bs4.Tag "table" []
                         [Bs4.Tag "tr" []
                            [Bs4.Tag "td" [] [Pages.anchor "/epubs/c.pdf" "FM 3"];
                             Pages.cac_cell]]])
              []
              ([0; 0; 0; 0; 0], Pages.anchor "/epubs/c.pdf" "FM 3")
              []
              ([0; 0; 0; 0], Bs4.Tag "td" [] [Pages.anchor "/epubs/c.pdf" "FM 3"])
              ([0; 0; 0; 1], Pages.cac_cell)
              [Publication "FM 3" "" "FM" "pdf" "Jan 5, 2020" CAC_DESCRIPTION
                           "https://armypubs.army.mil/epubs/c.pdf"]
              [] eq_refl eq_refl eq_refl eq_refl eq_refl eq_refl eq_refl)
    as (r & Hr & Hd & Hu).
  exists r. simpl in Hr. inversion Hr; subst r. repeat split.
Defined.

(** ** The text extractors *)

Lemma append_assoc3 (a b c : string) : (a ++ b) ++ c = a ++ b ++ c.
Proof.
  induction a as [|x a IH]; simpl; [reflexivity | now rewrite IH].
Qed.

Lemma append_empty_r (a : string) : a ++ "" = a.
Proof.
  induction a as [|x a IH]; simpl; [reflexivity | now rewrite IH].
Qed.

(** The page loop, when every page gives its text. *)
Lemma for_each_add_page texts : forall text,
  for_each add_page text (map Return texts) = Return (text ++ page_lines texts).
Proof.
  induction texts as [|t texts IH]; simpl; intros text.
  - now rewrite append_empty_r.
  - rewrite IH. now rewrite !append_assoc3.
Qed.

(** The PDF extractor on a document all of whose pages give their text: the
    texts in order, a newline after each, the whole stripped. *)
Lemma extract_pdf_text_pages PdfReader b texts w :
  PdfReader b = Return (map Return texts) ->
  result_of (extract_pdf_text PdfReader (Bytes b)) w
  = Return (Some (Py.strip (page_lines texts))).
Proof.
  intros H. unfold result_of, extract_pdf_text, try_except, bind, lift.
  rewrite H, for_each_add_page. reflexivity.
Qed.

(** The PDF extractor when the decoder raises: no text. *)
Lemma extract_pdf_text_decode_error PdfReader b e w :
  PdfReader b = Raise e ->
  result_of (extract_pdf_text PdfReader (Bytes b)) w = Return None.
Proof.
  intros H. unfold result_of, extract_pdf_text, try_except, bind, lift.
  rewrite H. reflexivity.
Qed.

(** C7. A PDF whose pages decode to Hello and World is extracted as the two
    words separated by one newline: the pages in order, newline-separated,
    the trailing newline trimmed. *)
Theorem extract_pdf_text_hello_world PdfReader b w :
  PdfReader b = Return [Return "Hello"; Return "World"] ->
  result_of (extract_pdf_text PdfReader (Bytes b)) w
  = Return (Some ("Hello" ++ Py.nl ++ "World")).
Proof.
  intros H.
  apply (extract_pdf_text_pages PdfReader b ["Hello"; "World"] w H).
Qed.

Lemma extract_pdf_text_hello_world_witness :
  result_of (extract_pdf_text Libs.read_pdf (Bytes "%PDF-hello-world")) []
  = Return (Some ("Hello" ++ Py.nl ++ "World")).
Proof.
  apply (extract_pdf_text_hello_world Libs.read_pdf "%PDF-hello-world" []).
  reflexivity.
Defined.

(** The chapters the item loop collects: the texts of the items that are
    documents with some text, in order. *)
Lemma fold_add_item BeautifulSoup items : forall text_content,
  fold_left (add_item BeautifulSoup) items text_content
  = (text_content
     ++ map (item_text BeautifulSoup) (filter (has_text BeautifulSoup) items))%list.
Proof.
  induction items as [|item items IH]; simpl; intros text_content.
  - now rewrite app_nil_r.
  - rewrite IH. unfold add_item, has_text.
    destruct (Nat.eqb (item_type item) ITEM_DOCUMENT); simpl; [|reflexivity].
    destruct (Py.truthy (Py.strip (item_text BeautifulSoup item))); simpl;
      [now rewrite <- app_assoc | reflexivity].
Qed.

Lemma extract_epub_text_items
    BeautifulSoup NamedTemporaryFile read_epub b path items w :
  NamedTemporaryFile b = Return path ->
  read_epub path b = Return items ->
  result_of (extract_epub_text BeautifulSoup NamedTemporaryFile read_epub
               (Bytes b)) w
  = Return (Some (Py.strip
                    (Py.join (Py.nl ++ Py.nl)
                       (map (item_text BeautifulSoup)
                            (filter (has_text BeautifulSoup) items))))).
Proof.
  intros T R. unfold result_of, extract_epub_text, try_except, bind, lift.
  rewrite T, R, fold_add_item. reflexivity.
Qed.

Lemma extract_epub_text_decode_error
    BeautifulSoup NamedTemporaryFile read_epub b path e w :
  NamedTemporaryFile b = Return path ->
  read_epub path b = Raise e ->
  result_of (extract_epub_text BeautifulSoup NamedTemporaryFile read_epub
               (Bytes b)) w
  = Return None.
Proof.
  intros T R. unfold result_of, extract_epub_text, try_except, bind, lift.
  rewrite T, R. reflexivity.
Qed.

(** C8. When the decoder succeeds and there is nothing to extract — a PDF
    of zero pages, an EPUB none of whose items is a document with text —
    each extractor returns the empty string; when the decoder raises, each
    returns [None]; the two results differ. *)
Theorem empty_text_is_success
    BeautifulSoup PdfReader NamedTemporaryFile read_epub b w :
  (PdfReader b = Return [] ->
   result_of (extract_pdf_text PdfReader (Bytes b)) w = Return (Some ""))
  /\ (forall e, PdfReader b = Raise e ->
      result_of (extract_pdf_text PdfReader (Bytes b)) w = Return None)
  /\ (forall path items,
        NamedTemporaryFile b = Return path ->
        read_epub path b = Return items ->
        filter (has_text BeautifulSoup) items = [] ->
        result_of (extract_epub_text BeautifulSoup NamedTemporaryFile
                     read_epub (Bytes b)) w
        = Return (Some ""))
  /\ (forall path e,
        NamedTemporaryFile b = Return path ->
        read_epub path b = Raise e ->
        result_of (extract_epub_text BeautifulSoup NamedTemporaryFile
                     read_epub (Bytes b)) w
        = Return None)
  /\ Return (Some "") <> Return (@None string).
Proof.
  repeat split.
  - intros H. apply (extract_pdf_text_pages PdfReader b [] w H).
  - intros e H. apply (extract_pdf_text_decode_error PdfReader b w H).
  - intros path items T R Z.
    rewrite (extract_epub_text_items BeautifulSoup NamedTemporaryFile
               read_epub b w T R), Z.
    reflexivity.
  - intros path e T R.
    apply (extract_epub_text_decode_error BeautifulSoup NamedTemporaryFile
             read_epub b w T R).
  - discriminate.
Qed.

Lemma empty_text_is_success_witness :
  result_of (extract_pdf_text Libs.read_pdf (Bytes "%PDF-no-pages")) []
  = Return (Some "")
  /\ result_of (extract_pdf_text Libs.read_pdf (Bytes "garbage")) []
     = Return None
  /\ result_of (extract_epub_text Pages.parse_known Libs.temp_file
                  Libs.read_book (Bytes "PK-empty-book")) []
     = Return (Some "")
  /\ result_of (extract_epub_text Pages.parse_known Libs.temp_file
                  Libs.read_book (Bytes "garbage")) []
     = Return None.
Proof.
  pose proof (empty_text_is_success Pages.parse_known Libs.read_pdf
                Libs.temp_file Libs.read_book "%PDF-no-pages" [])
    as (P1 & _).
  pose proof (empty_text_is_success Pages.parse_known Libs.read_pdf
                Libs.temp_file Libs.read_book "garbage" [])
    as (_ & P2 & _ & E2 & _).
  pose proof (empty_text_is_success Pages.parse_known Libs.read_pdf
                Libs.temp_file Libs.read_book "PK-empty-book" [])
    as (_ & _ & E1 & _).
  split; [exact (P1 eq_refl)|].
  split; [exact (P2 _ eq_refl)|].
  split; [exact (E1 _ _ eq_refl eq_refl eq_refl)|].
  exact (E2 _ _ eq_refl eq_refl).
Defined.

(** ** Format detection *)

Section Detection.

Variable guess_type : string -> option string.

Lemma format_from_hint_signal hint :
  format_from_hint hint None = hint_signal hint.
Proof.
  unfold format_from_hint, hint_signal. destruct hint as [h|]; [|reflexivity].
  destruct h; reflexivity.
Qed.

Lemma format_from_url_signal url :
  guess_type "" = None ->
  format_from_url guess_type url None = url_signal guess_type url.
Proof.
  intros G. unfold format_from_url, url_signal, mime_signal.
  destruct url as [u|]; [|reflexivity].
  destruct u as [|a u]; simpl; [now rewrite G|].
  destruct (Py.endswith ".pdf" _); [reflexivity|].
  destruct (Py.endswith ".epub" _); reflexivity.
Qed.

Lemma format_from_content_signal b :
  format_from_content (Bytes b) None = content_signal "PK" b.
Proof. reflexivity. Qed.

Lemma format_from_url_decided url f :
  format_from_url guess_type url (Some f) = Some f.
Proof. destruct url; reflexivity. Qed.

Lemma format_from_content_decided c f :
  format_from_content c (Some f) = Some f.
Proof. destruct c; reflexivity. Qed.

(** The three guarded assignments are a first-match-wins cascade. *)
Lemma detect_format_resolve hint url b :
  guess_type "" = None ->
  detect_format guess_type (Bytes b) hint url
  = resolve "PK" guess_type hint url b.
Proof.
  intros G. unfold detect_format, resolve. rewrite format_from_hint_signal.
  destruct (hint_signal hint) as [f|]; simpl first_signal.
  - now rewrite format_from_url_decided, format_from_content_decided.
  - rewrite (format_from_url_signal url G).
    destruct (url_signal guess_type url) as [f|]; simpl first_signal.
    + now rewrite format_from_content_decided.
    + rewrite format_from_content_signal.
      destruct (content_signal "PK" b); reflexivity.
Qed.

End Detection.

(** C2, as the code has it. The format the program detects is the first
    decision among three signals tried in order — the hint, the URL (suffix,
    then MIME table), the first bytes — where the bytes of a ZIP container
    are recognised by their first two bytes, P and K, alone; and the five
    test vectors hold. *)
Theorem detect_format_first_match_wins (guess_type : string -> option string) :
  guess_type "" = None ->
  guess_type "https://x/y" = None ->
  (forall hint url bytes_prefix,
     detect_format guess_type (Bytes bytes_prefix) hint url
     = resolve "PK" guess_type hint url bytes_prefix)
  /\ detect_format guess_type (Bytes "") (Some "EPUB (ebook)") None = Some epub
  /\ detect_format guess_type (Bytes "") None (Some "https://x/y.PDF")
     = Some pdf
  /\ (forall rest,
        detect_format guess_type (Bytes ("%PDF-1.4" ++ rest)) None None
        = Some pdf)
  /\ (forall rest,
        detect_format guess_type
          (Bytes (ZIP_LOCAL_FILE_HEADER ++ "mimetypeapplication/epub+zip"
                  ++ rest))
          None (Some "https://x/y")
        = Some epub)
  /\ detect_format guess_type (Bytes "garbage") None None = None.
Proof.
  intros G0 G1. split; [intros; now apply detect_format_resolve|].
  split; [reflexivity|]. split; [reflexivity|]. split; [reflexivity|].
  split; [|reflexivity].
  intros rest. unfold detect_format, format_from_url.
  simpl format_from_hint. cbv beta iota.
  change (Py.endswith ".pdf" (Py.lower "https://x/y")) with false.
  change (Py.endswith ".epub" (Py.lower "https://x/y")) with false.
  simpl is_none. simpl Py.truthy. cbv beta iota. rewrite G1.
  vm_compute. reflexivity.
Qed.

Lemma detect_format_first_match_wins_witness :
  detect_format Libs.guess_by_suffix (Bytes "PK-empty-book") None
                (Some "https://x/y.epub")
  = resolve "PK" Libs.guess_by_suffix None (Some "https://x/y.epub")
            "PK-empty-book"
  /\ detect_format Libs.guess_by_suffix (Bytes "garbage") None None = None.
Proof.
  destruct (detect_format_first_match_wins Libs.guess_by_suffix
              eq_refl eq_refl) as (R & _ & _ & _ & _ & V5).
  split; [apply R | exact V5].
Defined.

(** C2, as stated: with the full signature of a ZIP local file header asked
    of the bytes, the claim fails on the six bytes PKepub, which the program
    takes for an EPUB although they do not start with that signature. *)
Lemma zip_signature_counterexample :
  Py.startswith ZIP_LOCAL_FILE_HEADER "PKepub" = false
  /\ Py.startswith PDF_MAGIC "PKepub" = false
  /\ resolve ZIP_LOCAL_FILE_HEADER Libs.guess_by_suffix None None "PKepub"
     = None
  /\ detect_format Libs.guess_by_suffix (Bytes "PKepub") None None
     = Some epub.
Proof. repeat split. Qed.

(** ** Download and the exposed tool *)

Section Download.

Variable BeautifulSoup : string -> Bs4.node.
Variable PdfReader : string -> outcome (list (outcome string)).
Variable NamedTemporaryFile : string -> outcome string.
Variable read_epub : string -> string -> outcome (list epub_item).
Variable guess_type : string -> option string.
Variable client_get : string -> list (string * string) -> nat
                      -> outcome response.

Let extract := extract_document_text BeautifulSoup PdfReader
                 NamedTemporaryFile read_epub guess_type.
Let fetch_text := get_document_text_from_url BeautifulSoup PdfReader
                    NamedTemporaryFile read_epub guess_type client_get.

(** A failed download: the handler decides on the text of the exception. *)
Lemma fetch_text_transport_failure doc_url file_format e w :
  transport_failure client_get doc_url e ->
  result_of (fetch_text doc_url file_format) w
  = Return (if indicates_cac e then Some CAC_REQUIRED else None).
Proof.
  unfold fetch_text, result_of, get_document_text_from_url, try_except, bind,
    lift, print.
  intros [H|(r & H & S)]; rewrite H; [|rewrite S];
    destruct (indicates_cac e); reflexivity.
Qed.

(** A download that succeeds: the text is what the extraction returns. *)
Lemma fetch_text_downloaded doc_url file_format r text w :
  client_get doc_url document_headers 60 = Return r ->
  raise_for_status r = Return tt ->
  (forall w', result_of (extract (Bytes (response_content r)) file_format
                                 (Some doc_url)) w' = Return text) ->
  result_of (fetch_text doc_url file_format) w = Return text.
Proof.
  unfold fetch_text, result_of, get_document_text_from_url, try_except, bind,
    lift, print.
  intros H S X. rewrite H, S. fold extract.
  match goal with |- context [extract ?c ?f ?u ?w'] =>
    specialize (X w'); destruct (extract c f u w') as [[t|e'] w'']
  end; simpl in X; [now inversion X | discriminate].
Qed.

End Download.

(** C1, as the code has it. When the download fails and the text of the
    failure, in lower case, contains both the word redirect and the
    federation host, the call returns the fixed string that starts with
    CAC_REQUIRED: and not [None]. *)
Theorem cac_redirect_is_tagged
    BeautifulSoup PdfReader NamedTemporaryFile read_epub guess_type client_get
    doc_url file_format e w :
  transport_failure client_get doc_url e ->
  Py.contains "redirect" (Py.lower (str_of_exn e)) = true ->
  Py.contains "federation.eams.army" (Py.lower (str_of_exn e)) = true ->
  result_of (get_document_text_from_url BeautifulSoup PdfReader
               NamedTemporaryFile read_epub guess_type client_get
               doc_url file_format) w
  = Return (Some CAC_REQUIRED)
  /\ Py.startswith "CAC_REQUIRED:" CAC_REQUIRED = true
  /\ Some CAC_REQUIRED <> None.
Proof.
  intros T R F. split; [|split; [reflexivity | discriminate]].
  rewrite (fetch_text_transport_failure BeautifulSoup PdfReader
             NamedTemporaryFile read_epub guess_type file_format w T).
  unfold indicates_cac. now rewrite R, F.
Qed.

Lemma cac_redirect_is_tagged_witness :
  result_of (get_document_text_from_url Pages.parse_known Libs.read_pdf
               Libs.temp_file Libs.read_book Libs.guess_by_suffix
               Libs.get_redirected
               "https://armypubs.army.mil/epubs/DR_pubs/DR_d/ARN1.pdf"
               (Some "pdf")) []
  = Return (Some CAC_REQUIRED).
Proof.
  apply (@cac_redirect_is_tagged Pages.parse_known Libs.read_pdf
           Libs.temp_file Libs.read_book Libs.guess_by_suffix
           Libs.get_redirected
           "https://armypubs.army.mil/epubs/DR_pubs/DR_d/ARN1.pdf"
           (Some "pdf") (LibraryError Libs.redirect_message) []).
  - right. exists Libs.redirected. split; reflexivity.
  - reflexivity.
  - reflexivity.
Defined.

(** C1, as stated: on a download that ends in a redirect to the federation
    login, the string returned does not start with ACCESS_RESTRICTED:. *)
Lemma access_restricted_prefix_counterexample :
  transport_failure Libs.get_redirected
    "https://armypubs.army.mil/epubs/DR_pubs/DR_d/ARN1.pdf"
    (LibraryError Libs.redirect_message)
  /\ Py.contains "federation.eams.army" (Py.lower Libs.redirect_message) = true
  /\ result_of (get_document_text_from_url Pages.parse_known Libs.read_pdf
                  Libs.temp_file Libs.read_book Libs.guess_by_suffix
                  Libs.get_redirected
                  "https://armypubs.army.mil/epubs/DR_pubs/DR_d/ARN1.pdf"
                  (Some "pdf")) []
     = Return (Some CAC_REQUIRED)
  /\ Py.startswith "ACCESS_RESTRICTED:" CAC_REQUIRED = false.
Proof.
  split; [right; exists Libs.redirected; split; reflexivity|].
  repeat split.
Qed.

(** C9. When the download succeeds and the extraction returns the empty
    string, the tool returns the fixed failure message, the same string it
    returns when the extraction returns [None]. *)
Theorem get_publication_empty_text_is_failure
    BeautifulSoup PdfReader NamedTemporaryFile read_epub guess_type client_get
    publication_url r text w :
  client_get publication_url document_headers 60 = Return r ->
  raise_for_status r = Return tt ->
  text = Some "" \/ text = None ->
  (forall w',
     result_of (extract_document_text BeautifulSoup PdfReader
                  NamedTemporaryFile read_epub guess_type
                  (Bytes (response_content r)) (filetype_of publication_url)
                  (Some publication_url)) w'
     = Return text) ->
  result_of (get_publication BeautifulSoup PdfReader NamedTemporaryFile
               read_epub guess_type client_get publication_url) w
  = Return FAILED_TO_EXTRACT.
Proof.
  intros H S T X.
  pose proof (fetch_text_downloaded BeautifulSoup PdfReader NamedTemporaryFile
                read_epub guess_type client_get publication_url
                (filetype_of publication_url) w H S X) as D.
  unfold result_of, get_publication, bind in *.
  destruct (get_document_text_from_url _ _ _ _ _ _ _ _ w) as [[t|e'] w'];
    simpl in D; [|discriminate].
  inversion D; subst t. destruct T as [-> | ->]; reflexivity.
Qed.

Lemma get_publication_empty_text_is_failure_witness :
  result_of (get_publication Pages.parse_known Libs.read_pdf Libs.temp_file
               Libs.read_book Libs.guess_by_suffix
               (Libs.get_bytes "%PDF-no-pages")
               "https://armypubs.army.mil/epubs/DR_pubs/DR_a/ARN2.pdf") []
  = Return FAILED_TO_EXTRACT
  /\ result_of (get_publication Pages.parse_known Libs.read_pdf Libs.temp_file
                  Libs.read_book Libs.guess_by_suffix
                  (Libs.get_bytes "garbage")
                  "https://armypubs.army.mil/epubs/DR_pubs/DR_a/ARN2.pdf") []
     = Return FAILED_TO_EXTRACT.
Proof.
  split.
  - apply (@get_publication_empty_text_is_failure
             Pages.parse_known Libs.read_pdf Libs.temp_file Libs.read_book
             Libs.guess_by_suffix (Libs.get_bytes "%PDF-no-pages")
             "https://armypubs.army.mil/epubs/DR_pubs/DR_a/ARN2.pdf"
             (Response (Return tt) (Some "application/pdf") "%PDF-no-pages")
             (Some "") []);
      [reflexivity | reflexivity | left; reflexivity | intros w'; reflexivity].
  - apply (@get_publication_empty_text_is_failure
             Pages.parse_known Libs.read_pdf Libs.temp_file Libs.read_book
             Libs.guess_by_suffix (Libs.get_bytes "garbage")
             "https://armypubs.army.mil/epubs/DR_pubs/DR_a/ARN2.pdf"
             (Response (Return tt) (Some "application/pdf") "garbage")
             None []);
      [reflexivity | reflexivity | right; reflexivity | intros w'; reflexivity].
Defined.

(** * Further properties *)

Import SpecMore.

(** ** The records of a page *)

Section Records.

Variable tag_str : Bs4.node -> string.
Variable soup : Bs4.node.

(** Links that are not kept leave no trace in the loop. *)
Lemma for_each_kept_only links : forall st,
  for_each (loop_body tag_str soup) st links
  = for_each (loop_body tag_str soup) st (filter kept links).
Proof.
  induction links as [|link links IH]; intros st; simpl; [reflexivity|].
  destruct (kept link) eqn:K; simpl.
  - destruct (loop_body tag_str soup st link); simpl; [apply IH | reflexivity].
  - rewrite (loop_body_skipped tag_str soup st link K). simpl. apply IH.
Qed.

Lemma parse_soup_links w :
  result_of (parse_soup tag_str soup) w
  = obind (for_each (loop_body tag_str soup) (Locals [] None None)
                    (links_of soup))
          (fun st => Return (results st)).
Proof.
  rewrite parse_soup_result. unfold links_of.
  destruct (Bs4.find_attr "div" "id" RESULTS_ID ([], soup)); reflexivity.
Qed.

(** An iteration on a kept link that has its cell. *)
Lemma loop_body_described st link d x :
  kept link = true ->
  described soup link = Some (d, x) ->
  loop_body tag_str soup st link
  = Return (Locals (results st ++ [record_of tag_str soup link d x])
                   (Some d) (Some x)).
Proof.
  intros K D. rewrite (loop_body_kept tag_str soup st link K).
  unfold described in D. unfold after_cell, describe.
  destruct (Bs4.find_parent soup "td" link) as [td|]; [|discriminate].
  destruct (next_cell soup td) as [[cell|]|e]; inversion D; reflexivity.
Qed.

Lemma for_each_described links : forall st,
  forallb (is_described soup) (filter kept links) = true ->
  exists st',
    for_each (loop_body tag_str soup) st links = Return st'
    /\ results st'
       = (results st ++ map (own_record tag_str soup) (filter kept links))%list.
Proof.
  induction links as [|link links IH]; intros st H; simpl in *.
  - exists st. now rewrite app_nil_r.
  - destruct (kept link) eqn:K; simpl in *.
    + apply andb_true_iff in H as [D H]. unfold is_described in D.
      destruct (described soup link) as [[d x]|] eqn:E; [|discriminate].
      rewrite (@loop_body_described st link d x K E). simpl.
      destruct (IH (Locals (results st ++ [record_of tag_str soup link d x])
                           (Some d) (Some x)) H) as (st' & F & R).
      exists st'. split; [exact F|]. rewrite R. simpl.
      unfold own_record at 2. rewrite E. now rewrite <- app_assoc.
    + rewrite (loop_body_skipped tag_str soup st link K). simpl.
      apply IH, H.
Qed.

(** The values of the loop variables and the records, under a property
    that the empty string and every value read off a cell satisfy. *)
Section Invariant.

Variables Pd Px : string -> Prop.
Variable P : publication -> Prop.
Hypothesis Pd_empty : Pd "".
Hypothesis Px_empty : Px "".
Hypothesis Pd_from : forall t, Pd (date_from t).
Hypothesis Px_from : forall t, Px (description_from t).

Lemma describe_values td st st' :
  describe soup td st = Return st' -> values_ok Pd Px st'.
Proof.
  unfold describe.
  destruct (next_cell soup td) as [[cell|]|e]; simpl; intros H; inversion H;
    split; simpl; intros v E; inversion E; subst;
    try apply Pd_empty; try apply Px_empty;
    try apply Pd_from; try apply Px_from.
Qed.

Lemma after_cell_values st link st1 :
  values_ok Pd Px st -> after_cell soup st link = Return st1 ->
  values_ok Pd Px st1.
Proof.
  unfold after_cell. intros V.
  destruct (Bs4.find_parent soup "td" link) as [td|].
  - apply describe_values.
  - intros H; inversion H; subst; exact V.
Qed.

Lemma loop_invariant links :
  (forall link d x, In link links -> kept link = true -> Pd d -> Px x ->
                    P (record_of tag_str soup link d x)) ->
  forall st st',
    values_ok Pd Px st -> Forall P (results st) ->
    for_each (loop_body tag_str soup) st links = Return st' ->
    Forall P (results st').
Proof.
  induction links as [|link links IH]; intros HP st st' V F H; simpl in H.
  - now inversion H; subst.
  - destruct (loop_body tag_str soup st link) as [st0|e] eqn:B; simpl in H;
      [|discriminate].
    assert (HP' : forall l d x, In l links -> kept l = true -> Pd d -> Px x ->
                                P (record_of tag_str soup l d x))
      by (intros l d x I; apply HP; now right).
    destruct (loop_body_inv tag_str soup st link B)
      as [[K ->]|(K & st1 & d & x & A & D & X & ->)].
    + apply (IH HP' st st' V F H).
    + pose proof (@after_cell_values _ _ _ V A) as [Vd Vx].
      refine (IH HP' _ st' _ _ H).
      * split; simpl; intros v E; inversion E; subst; [now apply Vd | now apply Vx].
      * simpl. apply Forall_app. split; [exact F|].
        constructor; [|constructor].
        apply HP; [now left | exact K | now apply Vd | now apply Vx].
Qed.

Lemma parse_invariant w rs :
  (forall link d x, In link (links_of soup) -> kept link = true ->
                    Pd d -> Px x -> P (record_of tag_str soup link d x)) ->
  result_of (parse_soup tag_str soup) w = Return rs ->
  Forall P rs.
Proof.
  intros HP. rewrite parse_soup_links.
  destruct (for_each _ _ _) as [st|e] eqn:L; simpl; intros H; inversion H.
  subst rs.
  apply (@loop_invariant (links_of soup) HP (Locals [] None None) st);
    [split; simpl; discriminate | constructor | exact L].
Qed.

End Invariant.

End Records.

(** ** The matcher returns strings of the pattern *)

Module ReFacts.

Lemma length_app (a b : string) :
  String.length (a ++ b) = String.length a + String.length b.
Proof.
  induction a as [|x a IH]; simpl; [reflexivity | now rewrite IH].
Qed.

Lemma substring_prefix (a b : string) :
  substring 0 (String.length a) (a ++ b) = a.
Proof.
  induction a as [|x a IH]; simpl; [now destruct b | now rewrite IH].
Qed.

Lemma matched_app (m rest : string) : Re.matched (m ++ rest) rest = m.
Proof.
  unfold Re.matched. rewrite length_app.
  replace (String.length m + String.length rest - String.length rest)
    with (String.length m) by lia.
  apply substring_prefix.
Qed.

Lemma rep_sound c s : forall lo hi k rest,
  Re.rep c lo hi s k = Some rest ->
  exists seg s',
    s = seg ++ s' /\ Spec.all_chars c seg = true /\
    lo <= String.length seg /\ within hi (String.length seg) /\
    k s' = Some rest.
Proof.
  assert (Stop : forall t lo hi (k : string -> option string) rest,
             (if Nat.eqb lo 0 then k t else None) = Some rest ->
             exists seg s',
               t = seg ++ s' /\ Spec.all_chars c seg = true /\
               lo <= String.length seg /\ within hi (String.length seg) /\
               k s' = Some rest).
  { intros t lo hi k rest H. destruct (Nat.eqb lo 0) eqn:E; [|discriminate].
    apply Nat.eqb_eq in E. exists EmptyString, t.
    repeat split; simpl; try lia; [destruct hi; simpl; [lia | exact I] | exact H]. }
  induction s as [|a s IH]; intros lo hi k rest H; simpl in H.
  - now apply Stop.
  - destruct (c a && Re.more_allowed hi) eqn:G; [|now apply Stop].
    destruct (Re.rep c (pred lo) (Re.dec_max hi) s k) as [r|] eqn:R;
      [|now apply Stop].
    inversion H; subst r; clear H.
    apply andb_true_iff in G as [Ca Ma].
    destruct (IH _ _ _ _ R) as (seg & s' & -> & A & L & W & K).
    exists (String a seg), s'. simpl. rewrite Ca, A.
    repeat split; try assumption; [lia|].
    destruct hi as [[|n]|]; simpl in *; [discriminate | lia | exact I].
Qed.

Lemma match_here_sound p : forall s rest,
  Re.match_here p s = Some rest ->
  exists m, s = m ++ rest /\ conforms p m.
Proof.
  induction p as [|i p IH]; intros s rest H; simpl in H.
  - inversion H; subst. exists EmptyString. split; [reflexivity | constructor].
  - apply rep_sound in H as (seg & s' & -> & A & L & W & K).
    apply IH in K as (m & -> & C).
    exists (seg ++ m). split; [now rewrite append_assoc3|].
    now constructor.
Qed.

Lemma re_match_sound p s m :
  Re.re_match p s = Some m ->
  conforms p m /\ exists rest, s = m ++ rest.
Proof.
  unfold Re.re_match. destruct (Re.match_here p s) as [rest|] eqn:H;
    [|discriminate].
  apply match_here_sound in H as (m' & -> & C). rewrite matched_app.
  intros E; inversion E; subst. split; [exact C | now exists rest].
Qed.

Lemma re_search_sound p s : forall m,
  Re.re_search p s = Some m ->
  conforms p m /\ exists before rest, s = before ++ m ++ rest.
Proof.
  induction s as [|a s IH]; intros m H; simpl in H.
  - destruct (Re.re_match p "") as [m'|] eqn:E; [|discriminate].
    inversion H; subst. apply re_match_sound in E as (C & rest & E).
    split; [exact C | now exists EmptyString, rest].
  - destruct (Re.re_match p (String a s)) as [m'|] eqn:E.
    + inversion H; subst. apply re_match_sound in E as (C & rest & E).
      split; [exact C | now exists EmptyString, rest].
    + apply IH in H as (C & before & rest & ->).
      split; [exact C | now exists (String a before), rest].
Qed.

End ReFacts.

(** ** Splitting the title *)

Module SplitFacts.

Lemma startswith_app p x y :
  Py.startswith p x = true -> Py.startswith p (x ++ y) = true.
Proof.
  revert x. induction p as [|a p IH]; intros x H; [reflexivity|].
  destruct x as [|b x]; simpl in *; [discriminate|].
  apply andb_true_iff in H as [E H]. rewrite E. simpl. now apply IH.
Qed.

Lemma startswith_drop p s :
  Py.startswith p s = true -> s = p ++ Py.drop (String.length p) s.
Proof.
  revert s. induction p as [|a p IH]; intros s H; [reflexivity|].
  destruct s as [|b s]; simpl in *; [discriminate|].
  apply andb_true_iff in H as [E H]. apply Ascii.eqb_eq in E. subst b.
  f_equal. now apply IH.
Qed.

Lemma startswith_self_app p y : Py.startswith p (p ++ y) = true.
Proof.
  induction p as [|a p IH]; simpl; [reflexivity|].
  now rewrite Ascii.eqb_refl, IH.
Qed.

(** The head has no separator in it, and head, separator and tail make up
    the text again. *)
Lemma split_once_parts sep s : forall h t,
  sep <> EmptyString ->
  Py.split_once sep s = (h, t) ->
  Py.contains sep h = false /\
  match t with
  | Some t' => s = h ++ sep ++ t'
  | None => s = h
  end.
Proof.
  induction s as [|a s IH]; intros h t N H.
  - destruct sep as [|b sep]; [contradiction|]. simpl in H. inversion H.
    split; reflexivity.
  - cbn [Py.split_once] in H.
    destruct (Py.startswith sep (String a s)) eqn:E.
    + inversion H; subst. split.
      * destruct sep; [contradiction | reflexivity].
      * simpl. now apply startswith_drop.
    + destruct (Py.split_once sep s) as [h' t'] eqn:R. inversion H; subst.
      destruct (IH h' t N eq_refl) as [C D].
      assert (S : Py.startswith sep (String a h') = false).
      { destruct (Py.startswith sep (String a h')) eqn:S; [|reflexivity].
        destruct t as [t'|].
        - rewrite D in E.
          change (String a (h' ++ sep ++ t'))
            with (String a h' ++ sep ++ t') in E.
          now rewrite (startswith_app _ _ _ S) in E.
        - now rewrite D, S in E. }
      split.
      * cbn [Py.contains]. now rewrite S, C.
      * destruct t; simpl; now rewrite D at 1.
Qed.

End SplitFacts.

(** ** What the parser returns *)

Lemma url_record_of tag_str soup link d x :
  url (record_of tag_str soup link d x) = url_of link.
Proof. reflexivity. Qed.

Lemma number_record_of tag_str soup link d x :
  document_number (record_of tag_str soup link d x)
  = fst (Py.split_once Py.em_dash_sep (title_text_of link)).
Proof. reflexivity. Qed.

Lemma title_record_of tag_str soup link d x :
  title (record_of tag_str soup link d x)
  = or_default "" (snd (Py.split_once Py.em_dash_sep (title_text_of link))).
Proof. reflexivity. Qed.

Lemma type_record_of tag_str soup link d x :
  document_type (record_of tag_str soup link d x)
  = doc_type_of (fst (Py.split_once Py.em_dash_sep (title_text_of link))).
Proof. reflexivity. Qed.

(** X1. On a page where every kept link has an enclosing cell and the
    search for the cell that follows it does not fail, the parser returns
    one record for each kept link, in document order, each made from the
    link's own cell. *)
Theorem one_record_per_kept_link BeautifulSoup tag_str html w :
  forallb (is_described (BeautifulSoup html))
          (filter kept (links_of (BeautifulSoup html))) = true ->
  result_of (parse_search_results BeautifulSoup tag_str html) w
  = Return (map (own_record tag_str (BeautifulSoup html))
                (filter kept (links_of (BeautifulSoup html)))).
Proof.
  intros H. unfold parse_search_results. rewrite parse_soup_links.
  destruct (for_each_described tag_str (BeautifulSoup html)
              (links_of (BeautifulSoup html)) (Locals [] None None) H)
    as (st' & F & R).
  rewrite F. simpl. now rewrite R.
Qed.

Lemma one_record_per_kept_link_witness :
  result_of (parse_search_results LibsMore.parse_pages Pages.style_of
               LibsMore.table_html) []
  = Return LibsMore.table_records.
Proof.
  exact (one_record_per_kept_link LibsMore.parse_pages Pages.style_of
           LibsMore.table_html [] eq_refl).
Defined.

(** X2. The links that are not kept — other addresses, and the links whose
    text says Record Details — have no effect on the outcome: the parser
    does what its loop does on the kept links alone. *)
Theorem unkept_links_are_ignored BeautifulSoup tag_str html w :
  result_of (parse_search_results BeautifulSoup tag_str html) w
  = obind (for_each (loop_body tag_str (BeautifulSoup html))
                    (Locals [] None None)
                    (filter kept (links_of (BeautifulSoup html))))
          (fun st => Return (results st)).
Proof.
  unfold parse_search_results.
  now rewrite parse_soup_links, for_each_kept_only.
Qed.

(** X3. Every address returned is absolute: it starts with http, being
    either the link's own address or that address after the origin of the
    catalog. *)
Theorem returned_urls_are_absolute BeautifulSoup tag_str html w rs :
  result_of (parse_search_results BeautifulSoup tag_str html) w = Return rs ->
  Forall (fun r => Py.startswith "http" (url r) = true) rs.
Proof.
  apply (@parse_invariant tag_str (BeautifulSoup html)
           (fun _ => True) (fun _ => True)
           (fun r => Py.startswith "http" (url r) = true) I I
           (fun _ => I) (fun _ => I)).
  intros link d x _ _ _ _. rewrite url_record_of. unfold url_of.
  destruct (Py.startswith "http" (href_of link)) eqn:E; [exact E | reflexivity].
Qed.

Lemma returned_urls_are_absolute_witness :
  Forall (fun r => Py.startswith "http" (url r) = true) LibsMore.table_records.
Proof.
  exact (@returned_urls_are_absolute LibsMore.parse_pages Pages.style_of
           LibsMore.table_html [] LibsMore.table_records eq_refl).
Defined.

(** X4. No record carries a raw text that mentions the credential phrase:
    a description that contains the phrase is the fixed sentence. *)
Theorem credential_phrase_only_in_fixed_sentence
    BeautifulSoup tag_str html w rs :
  result_of (parse_search_results BeautifulSoup tag_str html) w = Return rs ->
  Forall (fun r => Py.contains CAC_PHRASE (description r) = true ->
                   description r = CAC_DESCRIPTION) rs.
Proof.
  apply (@parse_invariant tag_str (BeautifulSoup html)
           (fun _ => True)
           (fun x => Py.contains CAC_PHRASE x = true -> x = CAC_DESCRIPTION)
           (fun r => Py.contains CAC_PHRASE (description r) = true ->
                     description r = CAC_DESCRIPTION) I).
  - discriminate.
  - intros t; exact I.
  - intros t. unfold description_from.
    destruct (Py.contains CAC_PHRASE t) eqn:E; [reflexivity|].
    rewrite E. discriminate.
  - intros link d x _ _ _ Hx. exact Hx.
Qed.

Lemma credential_phrase_only_in_fixed_sentence_witness :
  Forall (fun r => Py.contains CAC_PHRASE (description r) = true ->
                   description r = CAC_DESCRIPTION) LibsMore.table_records.
Proof.
  exact (@credential_phrase_only_in_fixed_sentence
           LibsMore.parse_pages Pages.style_of LibsMore.table_html []
           LibsMore.table_records eq_refl).
Defined.

(** X5. On a page whose text is ASCII, where the character classes of the
    model are those of the program, the date of a record is empty or has
    the shape the pattern asks for: three word characters, white space, one
    or two digits, a comma, white space, four digits. *)
Theorem returned_dates_have_the_shape BeautifulSoup tag_str html w rs :
  ascii_tree (BeautifulSoup html) = true ->
  result_of (parse_search_results BeautifulSoup tag_str html) w = Return rs ->
  Forall (fun r => date r = "" \/ conforms Re.month_day_year (date r)) rs.
Proof.
  intros _.
  apply (@parse_invariant tag_str (BeautifulSoup html)
           (fun d => d = "" \/ conforms Re.month_day_year d)
           (fun _ => True)
           (fun r => date r = "" \/ conforms Re.month_day_year (date r))).
  - now left.
  - exact I.
  - intros t. unfold date_from.
    destruct (Re.re_search Re.month_day_year t) as [m|] eqn:E; simpl;
      [right | now left].
    now apply ReFacts.re_search_sound in E as [C _].
  - intros t; exact I.
  - intros link d x _ _ Hd _. exact Hd.
Qed.

Lemma returned_dates_have_the_shape_witness :
  Forall (fun r => date r = "" \/ conforms Re.month_day_year (date r))
         LibsMore.table_records.
Proof.
  exact (@returned_dates_have_the_shape LibsMore.parse_pages Pages.style_of
           LibsMore.table_html [] LibsMore.table_records eq_refl eq_refl).
Defined.

(** X6. Every record comes from a kept link of the page: its address is
    the link's, its number has no separator in it, and the text of the link
    is the number alone (the title being empty) or the number, the
    separator and the title. *)
Theorem records_come_from_kept_links BeautifulSoup tag_str html w rs :
  result_of (parse_search_results BeautifulSoup tag_str html) w = Return rs ->
  Forall (fun r =>
            exists link,
              In link (links_of (BeautifulSoup html)) /\ kept link = true /\
              url r = url_of link /\
              Py.contains Py.em_dash_sep (document_number r) = false /\
              ((title_text_of link = document_number r /\ title r = "") \/
               title_text_of link
               = document_number r ++ Py.em_dash_sep ++ title r)) rs.
Proof.
  apply (@parse_invariant tag_str (BeautifulSoup html)
           (fun _ => True) (fun _ => True) _ I I (fun _ => I) (fun _ => I)).
  intros link d x In_l K _ _. exists link.
  split; [exact In_l|]. split; [exact K|]. split; [reflexivity|].
  rewrite number_record_of, title_record_of.
  destruct (Py.split_once Py.em_dash_sep (title_text_of link)) as [h t] eqn:S.
  destruct (@SplitFacts.split_once_parts Py.em_dash_sep (title_text_of link)
              h t ltac:(discriminate) S) as [C D].
  cbn [fst snd]. split; [exact C|].
  destruct t as [t'|]; cbn [or_default]; [now right | now left].
Qed.

Lemma records_come_from_kept_links_witness :
  Forall (fun r =>
            exists link,
              In link (links_of LibsMore.table_page) /\ kept link = true /\
              url r = url_of link /\
              Py.contains Py.em_dash_sep (document_number r) = false /\
              ((title_text_of link = document_number r /\ title r = "") \/
               title_text_of link
               = document_number r ++ Py.em_dash_sep ++ title r))
         LibsMore.table_records.
Proof.
  exact (@records_come_from_kept_links LibsMore.parse_pages Pages.style_of
           LibsMore.table_html [] LibsMore.table_records eq_refl).
Defined.

Lemma startswith_take_while c s :
  Py.startswith (take_while c s) s = true.
Proof.
  induction s as [|a s IH]; simpl; [reflexivity|].
  destruct (c a); simpl; [now rewrite Ascii.eqb_refl, IH | reflexivity].
Qed.

(** X7. The document type of a record is the word Unknown, or a non-empty
    run of upper-case letters with which the document number starts. *)
Theorem returned_types_are_prefixes BeautifulSoup tag_str html w rs :
  result_of (parse_search_results BeautifulSoup tag_str html) w = Return rs ->
  Forall (fun r =>
            document_type r = "Unknown" \/
            (Py.truthy (document_type r) = true
             /\ all_chars Py.isupper (document_type r) = true
             /\ Py.startswith (document_type r) (document_number r) = true))
         rs.
Proof.
  apply (@parse_invariant tag_str (BeautifulSoup html)
           (fun _ => True) (fun _ => True) _ I I (fun _ => I) (fun _ => I)).
  intros link d x _ _ _ _. rewrite type_record_of, number_record_of.
  rewrite doc_type_of_run.
  destruct (Py.truthy (take_while Py.isupper _)) eqn:T; [right | now left].
  split; [exact T|]. split;
    [apply PyFacts.take_while_all | apply startswith_take_while].
Qed.

Lemma returned_types_are_prefixes_witness :
  Forall (fun r =>
            document_type r = "Unknown" \/
            (Py.truthy (document_type r) = true
             /\ all_chars Py.isupper (document_type r) = true
             /\ Py.startswith (document_type r) (document_number r) = true))
         LibsMore.table_records.
Proof.
  exact (@returned_types_are_prefixes LibsMore.parse_pages Pages.style_of
           LibsMore.table_html [] LibsMore.table_records eq_refl).
Defined.

(** ** Stripping *)

Module StripFacts.

Lemma lstrip_clean s : clean_start (Py.lstrip s).
Proof.
  induction s as [|c s IH]; simpl; [exact I|].
  destruct (Py.isspace c) eqn:E; [exact IH | exact E].
Qed.

Lemma lstrip_of_clean s : clean_start s -> Py.lstrip s = s.
Proof.
  destruct s as [|c s]; simpl; [reflexivity | now intros ->].
Qed.

Lemma rstrip_clean s : clean_start s -> clean_start (Py.rstrip s).
Proof.
  destruct s as [|c s]; simpl; [trivial|]. intros E.
  destruct (Py.rstrip s); [now rewrite E | exact E].
Qed.

Lemma rstrip_cons c s :
  Py.rstrip (String c s)
  = match Py.rstrip s with
    | EmptyString => if Py.isspace c then EmptyString else String c EmptyString
    | String b r => String c (String b r)
    end.
Proof. reflexivity. Qed.

Lemma rstrip_idempotent s : Py.rstrip (Py.rstrip s) = Py.rstrip s.
Proof.
  induction s as [|c s IH]; [reflexivity|].
  rewrite rstrip_cons. destruct (Py.rstrip s) as [|b r] eqn:R.
  - destruct (Py.isspace c) eqn:E; [reflexivity|].
    rewrite rstrip_cons. simpl. now rewrite E.
  - rewrite rstrip_cons, IH. reflexivity.
Qed.

Lemma strip_idempotent s : Py.strip (Py.strip s) = Py.strip s.
Proof.
  unfold Py.strip.
  rewrite (@lstrip_of_clean _ (@rstrip_clean _ (lstrip_clean s))).
  apply rstrip_idempotent.
Qed.

End StripFacts.

(** ** What the extractors and the tool never do *)

Section Totality.

Variable BeautifulSoup : string -> Bs4.node.
Variable PdfReader : string -> outcome (list (outcome string)).
Variable NamedTemporaryFile : string -> outcome string.
Variable read_epub : string -> string -> outcome (list epub_item).
Variable guess_type : string -> option string.
Variable client_get : string -> list (string * string) -> nat
                      -> outcome response.

Lemma extract_pdf_text_returns doc_content :
  returns_with (extract_pdf_text PdfReader doc_content) stripped_if_any.
Proof.
  intros w. unfold extract_pdf_text, try_except, bind, lift, print, ret.
  destruct doc_content as [b|s]; [|now eexists _, _].
  destruct (PdfReader b) as [pages|e]; [|now eexists _, _].
  destruct (for_each add_page "" pages) as [text|e]; [|now eexists _, _].
  eexists _, _. split; [reflexivity|]. apply StripFacts.strip_idempotent.
Qed.

Lemma extract_epub_text_returns doc_content :
  returns_with
    (extract_epub_text BeautifulSoup NamedTemporaryFile read_epub doc_content)
    stripped_if_any.
Proof.
  intros w. unfold extract_epub_text, try_except, bind, lift, print, ret.
  destruct doc_content as [b|s]; [|now eexists _, _].
  destruct (NamedTemporaryFile b) as [path|e]; [|now eexists _, _].
  destruct (read_epub path b) as [items|e]; [|now eexists _, _].
  eexists _, _. split; [reflexivity|]. apply StripFacts.strip_idempotent.
Qed.

(** X8. Whatever the PDF decoder, the EPUB decoder and the creation of the
    temporary file do, raising included, and given that
    [mimetypes.guess_type] returns (its call is in no [try]),
    [extract_document_text] returns: it does not raise, and the text it
    returns, if any, has no ASCII white space at either end. *)
Theorem extract_document_text_returns doc_content file_format url :
  returns_with
    (extract_document_text BeautifulSoup PdfReader NamedTemporaryFile
       read_epub guess_type doc_content file_format url)
    stripped_if_any.
Proof.
  intros w. unfold extract_document_text, bind, print.
  destruct (detect_format guess_type doc_content file_format url) as [[|]|].
  - apply extract_pdf_text_returns.
  - apply extract_epub_text_returns.
  - now eexists _, _.
Qed.

Lemma get_document_text_from_url_returns doc_url file_format :
  returns_with
    (get_document_text_from_url BeautifulSoup PdfReader NamedTemporaryFile
       read_epub guess_type client_get doc_url file_format)
    stripped_if_any.
Proof.
  intros w.
  unfold get_document_text_from_url, try_except, bind, lift, print.
  assert (Handler : forall e w0,
            exists a w',
              (if indicates_cac e then ret (Some CAC_REQUIRED)
               else @ret (option string) None) w0 = (Return a, w')
              /\ stripped_if_any a).
  { intros e w0. destruct (indicates_cac e); eexists _, _;
      (split; [reflexivity|]); [reflexivity | exact I]. }
  destruct (client_get doc_url document_headers 60) as [r|e]; [|apply Handler].
  destruct (raise_for_status r) as [[]|e]; [|apply Handler].
  match goal with |- context [extract_document_text ?a ?b ?c ?d ?e ?f ?g ?h ?w0] =>
    destruct (@extract_document_text_returns f g h w0) as (o & w' & -> & Q)
  end.
  now exists o, w'.
Qed.

(** X9. Whatever the network and the decoders do, [get_publication]
    returns a string that is not empty and has no white space at either
    end: the text extracted, or one of the two fixed messages. *)
Theorem get_publication_returns publication_url :
  returns_with
    (get_publication BeautifulSoup PdfReader NamedTemporaryFile read_epub
       guess_type client_get publication_url)
    (fun text => Py.truthy text = true /\ stripped text).
Proof.
  intros w. unfold get_publication, bind.
  destruct (@get_document_text_from_url_returns publication_url
              (filetype_of publication_url) w) as (o & w' & -> & Q).
  destruct o as [[|c t]|]; unfold ret, print.
  - now eexists _, _.
  - eexists _, _. split; [reflexivity|]. split; [reflexivity | exact Q].
  - now eexists _, _.
Qed.

(** X10. A document one of whose pages cannot be read gives no text at
    all, whatever the other pages hold. *)
Theorem one_bad_page_gives_no_text b pages e w :
  PdfReader b = Return pages ->
  In (Raise e) pages ->
  result_of (extract_pdf_text PdfReader (Bytes b)) w = Return None.
Proof.
  intros R I.
  assert (F : forall text, exists e', for_each add_page text pages = Raise e').
  { clear R. induction pages as [|p pages IH]; [contradiction|].
    intros text. simpl. destruct I as [-> | I]; [now exists e|].
    destruct p as [t|e']; simpl; [apply (IH I) | now exists e']. }
  unfold result_of, extract_pdf_text, try_except, bind, lift.
  rewrite R. destruct (F "") as (e' & ->). reflexivity.
Qed.

(** X11. Content that is a string, not bytes, gives no text, whatever the
    hint and the address say. *)
Theorem text_content_gives_no_text s file_format url w :
  result_of (extract_document_text BeautifulSoup PdfReader NamedTemporaryFile
               read_epub guess_type (Str s) file_format url) w
  = Return None.
Proof.
  unfold result_of, extract_document_text, bind, print.
  destruct (detect_format guess_type (Str s) file_format url) as [[|]|];
    reflexivity.
Qed.

(** X12. When the download fails, the tool returns the credential message
    if the text of the failure has both words, and the failure message
    otherwise. *)
Theorem get_publication_on_transport_failure publication_url e w :
  transport_failure client_get publication_url e ->
  result_of (get_publication BeautifulSoup PdfReader NamedTemporaryFile
               read_epub guess_type client_get publication_url) w
  = Return (if indicates_cac e then CAC_REQUIRED else FAILED_TO_EXTRACT).
Proof.
  intros T.
  pose proof (fetch_text_transport_failure BeautifulSoup PdfReader
                NamedTemporaryFile read_epub guess_type
                (filetype_of publication_url) w T) as D.
  unfold result_of, get_publication, bind in *.
  destruct (get_document_text_from_url _ _ _ _ _ _ _ _ w) as [[o|e'] w'];
    simpl in D; [|discriminate].
  inversion D; subst o. destruct (indicates_cac e); reflexivity.
Qed.

(** X13. When the download succeeds and the extraction returns a text that
    is not empty, the tool returns that text unchanged. *)
Theorem get_publication_returns_the_text publication_url r text w :
  client_get publication_url document_headers 60 = Return r ->
  raise_for_status r = Return tt ->
  Py.truthy text = true ->
  (forall w',
     result_of (extract_document_text BeautifulSoup PdfReader
                  NamedTemporaryFile read_epub guess_type
                  (Bytes (response_content r)) (filetype_of publication_url)
                  (Some publication_url)) w'
     = Return (Some text)) ->
  result_of (get_publication BeautifulSoup PdfReader NamedTemporaryFile
               read_epub guess_type client_get publication_url) w
  = Return text.
Proof.
  intros H S T X.
  pose proof (fetch_text_downloaded BeautifulSoup PdfReader NamedTemporaryFile
                read_epub guess_type client_get publication_url
                (filetype_of publication_url) w H S X) as D.
  unfold result_of, get_publication, bind in *.
  destruct (get_document_text_from_url _ _ _ _ _ _ _ _ w) as [[o|e'] w'];
    simpl in D; [|discriminate].
  inversion D; subst o. destruct text; [discriminate | reflexivity].
Qed.

End Totality.

Lemma one_bad_page_gives_no_text_witness :
  result_of (extract_pdf_text LibsMore.read_pdf_bad_page (Bytes "%PDF-1.4")) []
  = Return None.
Proof.
  apply (@one_bad_page_gives_no_text LibsMore.read_pdf_bad_page "%PDF-1.4"
           [Return "Hello"; Raise (LibraryError "cannot decode page");
            Return "World"]
           (LibraryError "cannot decode page") []).
  - reflexivity.
  - right. left. reflexivity.
Defined.

Lemma get_publication_on_transport_failure_witness :
  result_of (get_publication Pages.parse_known Libs.read_pdf Libs.temp_file
               Libs.read_book Libs.guess_by_suffix Libs.get_redirected
               "https://armypubs.army.mil/epubs/DR_pubs/DR_d/ARN1.pdf") []
  = Return CAC_REQUIRED
  /\ result_of (get_publication Pages.parse_known Libs.read_pdf Libs.temp_file
                  Libs.read_book Libs.guess_by_suffix LibsMore.get_refused
                  "https://armypubs.army.mil/epubs/DR_pubs/DR_d/ARN1.pdf") []
     = Return FAILED_TO_EXTRACT.
Proof.
  split.
  - apply (@get_publication_on_transport_failure
             Pages.parse_known Libs.read_pdf Libs.temp_file Libs.read_book
             Libs.guess_by_suffix Libs.get_redirected
             "https://armypubs.army.mil/epubs/DR_pubs/DR_d/ARN1.pdf"
             (LibraryError Libs.redirect_message) []).
    right. exists Libs.redirected. split; reflexivity.
  - apply (@get_publication_on_transport_failure
             Pages.parse_known Libs.read_pdf Libs.temp_file Libs.read_book
             Libs.guess_by_suffix LibsMore.get_refused
             "https://armypubs.army.mil/epubs/DR_pubs/DR_d/ARN1.pdf"
             (LibraryError "All connection attempts failed") []).
    left. reflexivity.
Defined.

Lemma get_publication_returns_the_text_witness :
  result_of (get_publication Pages.parse_known Libs.read_pdf Libs.temp_file
               Libs.read_book Libs.guess_by_suffix
               (Libs.get_bytes "%PDF-hello-world")
               "https://armypubs.army.mil/epubs/DR_pubs/DR_a/ARN2.pdf") []
  = Return ("Hello" ++ Py.nl ++ "World").
Proof.
  apply (@get_publication_returns_the_text
           Pages.parse_known Libs.read_pdf Libs.temp_file Libs.read_book
           Libs.guess_by_suffix (Libs.get_bytes "%PDF-hello-world")
           "https://armypubs.army.mil/epubs/DR_pubs/DR_a/ARN2.pdf"
           (Response (Return tt) (Some "application/pdf") "%PDF-hello-world")
           ("Hello" ++ Py.nl ++ "World") []);
    [reflexivity | reflexivity | reflexivity | intros w'; reflexivity].
Defined.

(** ** The label taken from the address *)

Module SuffixFacts.

Lemma last_cons {A} (x : A) l d : l <> [] -> last (x :: l) d = last l d.
Proof. destruct l; [contradiction | reflexivity]. Qed.

Lemma split_char_no_sep c s :
  all_chars (fun a => negb (Ascii.eqb a c)) s = true ->
  Py.split_char c s = [s].
Proof.
  induction s as [|a s IH]; simpl; [reflexivity|]. intros H.
  apply andb_true_iff in H as [N H]. apply negb_true_iff in N.
  rewrite N, (IH H). reflexivity.
Qed.

(** The last field of a text that ends in a separator and a field. *)
Lemma last_field c ext :
  all_chars (fun a => negb (Ascii.eqb a c)) ext = true ->
  forall pre,
    exists h t,
      Py.split_char c (pre ++ String c ext) = h :: t /\ t <> []
      /\ last t "" = ext.
Proof.
  intros N. induction pre as [|x pre IH]; simpl.
  - rewrite Ascii.eqb_refl, (split_char_no_sep c ext N).
    exists EmptyString, [ext]. repeat split. discriminate.
  - destruct IH as (h & t & -> & T & L).
    destruct (Ascii.eqb x c).
    + exists EmptyString, (h :: t). repeat split; [discriminate|].
      now rewrite last_cons.
    + exists (String x h), t. repeat split; assumption.
Qed.

Lemma endswith_app suf s :
  Py.endswith suf s = true -> exists pre, s = pre ++ suf.
Proof.
  induction s as [|a s IH]; simpl.
  - rewrite orb_false_r. intros H. apply String.eqb_eq in H. subst.
    now exists EmptyString.
  - intros H. apply orb_true_iff in H as [H|H].
    + apply String.eqb_eq in H. subst. now exists EmptyString.
    + destruct (IH H) as (pre & ->). now exists (String a pre).
Qed.

Lemma lower_app s : forall a b,
  Py.lower s = a ++ b ->
  exists x y, s = x ++ y /\ Py.lower x = a /\ Py.lower y = b.
Proof.
  induction s as [|c s IH]; intros a b H.
  - destruct a; [|discriminate]. simpl in H. subst b.
    now exists EmptyString, EmptyString.
  - destruct a as [|c' a]; simpl in H.
    + exists EmptyString, (String c s). now subst b.
    + inversion H as [[Hc Hs]]. destruct (IH _ _ Hs) as (x & y & -> & Lx & Ly).
      exists (String c x), y. simpl. now rewrite Lx.
Qed.

Lemma lower_char_dot c : Py.lower_char c = "."%char -> c = "."%char.
Proof.
  destruct c as [[] [] [] [] [] [] [] []]; vm_compute; intros H;
    try discriminate H; reflexivity.
Qed.

Lemma lower_no_dot s :
  all_chars not_dot (Py.lower s) = true -> all_chars not_dot s = true.
Proof.
  induction s as [|c s IH]; simpl; [reflexivity|]. intros H.
  apply andb_true_iff in H as [N H]. rewrite (IH H), andb_true_r.
  unfold not_dot in *. destruct (Ascii.eqb c ".") eqn:E; [|reflexivity].
  apply Ascii.eqb_eq in E. subst c. discriminate N.
Qed.

Lemma contains_startswith sub s :
  Py.startswith sub s = true -> Py.contains sub s = true.
Proof. destruct s; simpl; intros ->; reflexivity. Qed.

Lemma contains_app sub pre post :
  Py.contains sub (pre ++ sub ++ post) = true.
Proof.
  induction pre as [|c pre IH].
  - apply contains_startswith. exact (SplitFacts.startswith_self_app sub post).
  - simpl. rewrite IH. apply orb_true_r.
Qed.

(** An address that ends, in lower case, in a dot and the field [e] has a
    label, and the label is [e] in lower case. *)
Lemma filetype_of_suffix url e :
  all_chars not_dot e = true ->
  Py.endswith (String "." e) (Py.lower url) = true ->
  exists ext, filetype_of url = Some ext /\ Py.lower ext = e.
Proof.
  intros N H. apply endswith_app in H as (pre' & H).
  apply lower_app in H as (pre & y & -> & _ & Ly).
  destruct y as [|d ext]; [discriminate|]. simpl in Ly.
  inversion Ly as [[Hd He]]. apply lower_char_dot in Hd. subst d.
  exists ext. split; [|reflexivity]. unfold filetype_of.
  change (pre ++ String "." ext) with (pre ++ "." ++ ext).
  rewrite (contains_app "." pre ext).
  change (pre ++ "." ++ ext) with (pre ++ String "." ext).
  assert (Nx : all_chars (fun a => negb (Ascii.eqb a ".")) ext = true).
  { apply lower_no_dot. now rewrite He. }
  destruct (last_field "." ext Nx pre) as (h & t & -> & T & L).
  rewrite (last_cons h "" T). now rewrite L.
Qed.

End SuffixFacts.

(** X14. For an address that ends in .pdf, in any case, the tool's own
    label makes the format PDF whatever the content is; for one that ends
    in .epub, EPUB. *)
Theorem suffix_decides_the_format
    (guess_type : string -> option string) doc_content url :
  (Py.endswith ".pdf" (Py.lower url) = true ->
   detect_format guess_type doc_content (filetype_of url) (Some url)
   = Some pdf)
  /\ (Py.endswith ".epub" (Py.lower url) = true ->
      detect_format guess_type doc_content (filetype_of url) (Some url)
      = Some epub).
Proof.
  split; intros H.
  - destruct (@SuffixFacts.filetype_of_suffix url "pdf" eq_refl H)
      as (ext & -> & L).
    unfold detect_format, format_from_hint. rewrite L.
    destruct ext; [discriminate|]. cbn [Py.truthy].
    change (Py.contains "pdf" "pdf") with true. cbv iota.
    now rewrite format_from_url_decided, format_from_content_decided.
  - destruct (@SuffixFacts.filetype_of_suffix url "epub" eq_refl H)
      as (ext & -> & L).
    unfold detect_format, format_from_hint. rewrite L.
    destruct ext; [discriminate|]. cbn [Py.truthy].
    change (Py.contains "pdf" "epub") with false.
    change (Py.contains "epub" "epub") with true. cbv iota. cbn [orb].
    now rewrite format_from_url_decided, format_from_content_decided.
Qed.

Lemma suffix_decides_the_format_witness :
  detect_format Libs.guess_by_suffix (Bytes "garbage")
    (filetype_of "https://armypubs.army.mil/epubs/DR_a/ARN1.PDF")
    (Some "https://armypubs.army.mil/epubs/DR_a/ARN1.PDF")
  = Some pdf
  /\ detect_format Libs.guess_by_suffix (Bytes "%PDF-1.4")
       (filetype_of "https://armypubs.army.mil/epubs/DR_a/ARN1.epub")
       (Some "https://armypubs.army.mil/epubs/DR_a/ARN1.epub")
     = Some epub.
Proof.
  split.
  - exact (proj1 (suffix_decides_the_format Libs.guess_by_suffix
                    (Bytes "garbage")
                    "https://armypubs.army.mil/epubs/DR_a/ARN1.PDF") eq_refl).
  - exact (proj2 (suffix_decides_the_format Libs.guess_by_suffix
                    (Bytes "%PDF-1.4")
                    "https://armypubs.army.mil/epubs/DR_a/ARN1.epub") eq_refl).
Defined.

(** X15. The text after the last dot of the address counts as the format
    label: when it mentions epub (or ebook) and not pdf, the format is EPUB
    even for bytes that start with the PDF magic and an address with no
    extension. *)
Theorem label_from_address_overrides_content
    (guess_type : string -> option string) url label rest :
  filetype_of url = Some label ->
  Py.contains "pdf" (Py.lower label) = false ->
  Py.contains "epub" (Py.lower label) || Py.contains "ebook" (Py.lower label)
  = true ->
  detect_format guess_type (Bytes ("%PDF" ++ rest)) (filetype_of url) (Some url)
  = Some epub.
Proof.
  intros F P E. rewrite F. unfold detect_format, format_from_hint.
  destruct label as [|c label]; [discriminate E|]. cbn [Py.truthy].
  rewrite P, E.
  now rewrite format_from_url_decided, format_from_content_decided.
Qed.

Lemma label_from_address_overrides_content_witness :
  detect_format Libs.guess_by_suffix (Bytes ("%PDF" ++ "-1.4"))
    (filetype_of "https://armypubs.army.mil/epubs/DR_pubs/ARN1")
    (Some "https://armypubs.army.mil/epubs/DR_pubs/ARN1")
  = Some epub.
Proof.
  apply (@label_from_address_overrides_content Libs.guess_by_suffix
           "https://armypubs.army.mil/epubs/DR_pubs/ARN1"
           "mil/epubs/DR_pubs/ARN1" "-1.4");
    reflexivity.
Defined.

(** ** The search address *)

Module QuoteFacts.

Lemma unquote_quote_byte c t :
  unquote (Urllib.quote_byte c ++ t) = String c (unquote t).
Proof.
  destruct c as [[] [] [] [] [] [] [] []]; reflexivity.
Qed.

Lemma unquote_quote s : unquote (Urllib.quote s) = s.
Proof.
  induction s as [|c s IH]; [reflexivity|].
  cbn [Urllib.quote]. now rewrite unquote_quote_byte, IH.
Qed.

Lemma quote_byte_chars c : all_chars url_char (Urllib.quote_byte c) = true.
Proof.
  destruct c as [[] [] [] [] [] [] [] []]; reflexivity.
Qed.

Lemma all_chars_app f a b :
  all_chars f (a ++ b) = all_chars f a && all_chars f b.
Proof.
  induction a as [|c a IH]; simpl; [reflexivity|].
  now rewrite IH, andb_assoc.
Qed.

Lemma quote_chars s : all_chars url_char (Urllib.quote s) = true.
Proof.
  induction s as [|c s IH]; [reflexivity|].
  cbn [Urllib.quote]. now rewrite all_chars_app, quote_byte_chars, IH.
Qed.

Lemma append_inv_head (a x y : string) : a ++ x = a ++ y -> x = y.
Proof.
  induction a as [|c a IH]; simpl; [trivial|].
  intros H. inversion H. now apply IH.
Qed.

Lemma all_chars_contains f c s :
  all_chars f s = true -> f c = false ->
  Py.contains (String c "") s = false.
Proof.
  intros A F. induction s as [|a s IH]; [reflexivity|].
  simpl in A. apply andb_true_iff in A as [Fa A].
  cbn [Py.contains Py.startswith]. rewrite (IH A), orb_false_r.
  destruct (Ascii.eqb c a) eqn:E; [|reflexivity].
  apply Ascii.eqb_eq in E. subst a. now rewrite F in Fa.
Qed.

End QuoteFacts.

(** X16. The address of a search is the fixed address, the marker of the
    one parameter and the encoded query, and no character of the query
    gets through that could end or split the parameter: no space, ampersand,
    equals sign, question mark, hash or plus sign occurs in the encoded
    query. *)
Theorem search_url_keeps_the_query_inside query :
  exists encoded,
    search_url query = ARMY_PUBS_API_BASE ++ "?q=" ++ encoded
    /\ all_chars url_char encoded = true
    /\ forall c, In c [" "; "&"; "="; "?"; "#"; "+"]%char ->
                 Py.contains (String c "") encoded = false.
Proof.
  exists (Urllib.quote query). split; [reflexivity|].
  split; [apply QuoteFacts.quote_chars|].
  intros c H.
  apply (QuoteFacts.all_chars_contains url_char c _
           (QuoteFacts.quote_chars query)).
  simpl in H. repeat (destruct H as [<-|H]; [reflexivity|]). contradiction.
Qed.

(** X17. Two queries that give the same search address are the same query:
    the encoding loses nothing. *)
Theorem search_url_is_injective query1 query2 :
  search_url query1 = search_url query2 -> query1 = query2.
Proof.
  unfold search_url. intros H.
  apply QuoteFacts.append_inv_head in H.
  apply (QuoteFacts.append_inv_head "?q=") in H.
  rewrite <- (QuoteFacts.unquote_quote query1),
          <- (QuoteFacts.unquote_quote query2).
  now rewrite H.
Qed.

Lemma search_url_is_injective_witness :
  "field manual 3-0 & more" = "field manual 3-0 & more".
Proof.
  exact (@search_url_is_injective "field manual 3-0 & more"
           "field manual 3-0 & more" eq_refl).
Defined.

(** ** The search tool *)

Section SearchTool.

Variable BeautifulSoup : string -> Bs4.node.
Variable tag_str : Bs4.node -> string.
Variable client_get : string -> list (string * string) -> nat
                      -> outcome response.
Variable status_code : response -> nat.
Variable response_text : response -> string.

(** What the request returns, by what the client does. *)
Lemma make_pubs_request_result url w :
  result_of (make_pubs_request client_get status_code response_text url) w
  = Return match client_get url pubs_headers 30 with
           | Return r =>
               match raise_for_status r with
               | Return _ => Some (response_text r)
               | Raise _ => None
               end
           | Raise _ => None
           end.
Proof.
  unfold result_of, make_pubs_request, try_except, bind, lift, print, ret.
  destruct (client_get url pubs_headers 30) as [r|e]; [|reflexivity].
  destruct (raise_for_status r) as [[]|e]; reflexivity.
Qed.

(** X18. The request for a page never raises: it returns [None] exactly
    when the client or the status check fails, and otherwise the text of
    the response. *)
Theorem make_pubs_request_none_iff_failure url w :
  exists page,
    result_of (make_pubs_request client_get status_code response_text url) w
    = Return page
    /\ (page = None <-> exists e, page_failure client_get url e)
    /\ (forall text, page = Some text ->
        exists r, client_get url pubs_headers 30 = Return r
                  /\ raise_for_status r = Return tt
                  /\ text = response_text r).
Proof.
  rewrite make_pubs_request_result. unfold page_failure.
  destruct (client_get url pubs_headers 30) as [r|e] eqn:G.
  - destruct (raise_for_status r) as [[]|e] eqn:S; eexists; (split; [reflexivity|]).
    + split.
      * split; [discriminate|].
        intros (e & [H|(r' & H & S')]); [discriminate|].
        inversion H; subst r'. rewrite S in S'. discriminate.
      * intros text H. inversion H. now exists r.
    + split; [|discriminate].
      split; [|reflexivity]. intros _. exists e. right. now exists r.
  - eexists. split; [reflexivity|]. split; [|discriminate].
    split; [|reflexivity]. intros _. exists e. now left.
Qed.

(** X19. When the page cannot be fetched, or comes back empty, the search
    returns the fixed message and does not raise. *)
Theorem search_pubs_unable_to_fetch query w :
  (exists e, page_failure client_get (search_url query) e)
  \/ (exists r, client_get (search_url query) pubs_headers 30 = Return r
                /\ raise_for_status r = Return tt
                /\ response_text r = "") ->
  result_of (search_pubs BeautifulSoup tag_str client_get status_code
               response_text query) w
  = Return (Message UNABLE_TO_FETCH).
Proof.
  intros H. unfold result_of, search_pubs, bind, print. cbv beta iota zeta.
  match goal with |- context [make_pubs_request ?a ?b ?c ?u ?w0] =>
    pose proof (make_pubs_request_result u w0) as R;
    unfold result_of in R;
    destruct (make_pubs_request a b c u w0) as [[page|e'] w']
  end; simpl in R; [|discriminate]. inversion R as [P]; clear R.
  unfold page_failure in H.
  destruct H as [(e & [H|(r & H & S)])|(r & H & S & T)]; rewrite H in *.
  - reflexivity.
  - rewrite S. reflexivity.
  - rewrite S, T. reflexivity.
Qed.

(** X20. When the page is fetched and is not empty, the search does what
    the parser does on its text: it returns the records the parser returns,
    and raises what the parser raises. *)
Theorem search_pubs_is_the_parser_on_the_page query r w :
  client_get (search_url query) pubs_headers 30 = Return r ->
  raise_for_status r = Return tt ->
  Py.truthy (response_text r) = true ->
  result_of (search_pubs BeautifulSoup tag_str client_get status_code
               response_text query) w
  = match result_of (parse_search_results BeautifulSoup tag_str
                       (response_text r)) [] with
    | Return records => Return (Publications records)
    | Raise e => Raise e
    end.
Proof.
  intros G S T. unfold result_of at 1. unfold search_pubs, bind, print.
  cbv beta iota zeta.
  match goal with |- context [make_pubs_request ?a ?b ?c ?u ?w0] =>
    pose proof (make_pubs_request_result u w0) as R;
    unfold result_of in R;
    destruct (make_pubs_request a b c u w0) as [[page|e'] w']
  end; simpl in R; [|discriminate]. inversion R as [P]; clear R.
  rewrite G, S, T.
  rewrite (parse_result_independent_of_world BeautifulSoup tag_str
             (response_text r) [] w').
  unfold result_of.
  destruct (parse_search_results BeautifulSoup tag_str (response_text r) w')
    as [[records|e] w'']; reflexivity.
Qed.

End SearchTool.

Lemma search_pubs_unable_to_fetch_witness :
  result_of (search_pubs LibsMore.parse_pages Pages.style_of
               LibsMore.get_refused LibsMore.code_200 LibsMore.body_of
               "ranger handbook") []
  = Return (Message UNABLE_TO_FETCH)
  /\ result_of (search_pubs LibsMore.parse_pages Pages.style_of
                  (LibsMore.get_page "") LibsMore.code_200 LibsMore.body_of
                  "ranger handbook") []
     = Return (Message UNABLE_TO_FETCH).
Proof.
  split.
  - apply (@search_pubs_unable_to_fetch LibsMore.parse_pages Pages.style_of
             LibsMore.get_refused LibsMore.code_200 LibsMore.body_of
             "ranger handbook" []).
    left. exists (LibraryError "All connection attempts failed").
    left. reflexivity.
  - apply (@search_pubs_unable_to_fetch LibsMore.parse_pages Pages.style_of
             (LibsMore.get_page "") LibsMore.code_200 LibsMore.body_of
             "ranger handbook" []).
    right. exists (Response (Return tt) (Some "text/html") "").
    repeat split.
Defined.

Lemma search_pubs_is_the_parser_on_the_page_witness :
  result_of (search_pubs LibsMore.parse_pages Pages.style_of
               (LibsMore.get_page LibsMore.table_html) LibsMore.code_200
               LibsMore.body_of "ranger handbook") []
  = Return (Publications LibsMore.table_records)
  /\ result_of (search_pubs LibsMore.parse_pages Pages.style_of
                  (LibsMore.get_page Pages.lone_anchor_html) LibsMore.code_200
                  LibsMore.body_of "ranger handbook") []
     = Raise (UnboundLocalError "date_text").
Proof.
  split.
  - exact (@search_pubs_is_the_parser_on_the_page
             LibsMore.parse_pages Pages.style_of
             (LibsMore.get_page LibsMore.table_html) LibsMore.code_200
             LibsMore.body_of "ranger handbook"
             (Response (Return tt) (Some "text/html") LibsMore.table_html)
             [] eq_refl eq_refl eq_refl).
  - exact (@search_pubs_is_the_parser_on_the_page
             LibsMore.parse_pages Pages.style_of
             (LibsMore.get_page Pages.lone_anchor_html) LibsMore.code_200
             LibsMore.body_of "ranger handbook"
             (Response (Return tt) (Some "text/html") Pages.lone_anchor_html)
             [] eq_refl eq_refl eq_refl).
Defined.

(** ** The items of a book *)

Lemma filter_has_text_documents BeautifulSoup items :
  filter (has_text BeautifulSoup) (filter is_document items)
  = filter (has_text BeautifulSoup) items.
Proof.
  induction items as [|item items IH]; simpl; [reflexivity|].
  unfold is_document at 1, has_text at 2.
  destruct (Nat.eqb (item_type item) ITEM_DOCUMENT) eqn:E; simpl.
  - unfold has_text at 1. rewrite E. simpl.
    destruct (Py.truthy _); now rewrite IH.
  - exact IH.
Qed.

(** X21. The text of a book depends on its documents only: two books with
    the same documents in the same order give the same text, whatever
    images, style sheets and other items they hold besides. *)
Theorem epub_text_depends_on_documents_only
    BeautifulSoup NamedTemporaryFile read_epub1 read_epub2
    b path items1 items2 w :
  NamedTemporaryFile b = Return path ->
  read_epub1 path b = Return items1 ->
  read_epub2 path b = Return items2 ->
  filter is_document items1 = filter is_document items2 ->
  result_of (extract_epub_text BeautifulSoup NamedTemporaryFile read_epub1
               (Bytes b)) w
  = result_of (extract_epub_text BeautifulSoup NamedTemporaryFile read_epub2
                 (Bytes b)) w.
Proof.
  intros T R1 R2 D.
  rewrite (extract_epub_text_items BeautifulSoup NamedTemporaryFile read_epub1
             b w T R1),
          (extract_epub_text_items BeautifulSoup NamedTemporaryFile read_epub2
             b w T R2).
  now rewrite <- (filter_has_text_documents BeautifulSoup items1), D,
              filter_has_text_documents.
Qed.

Lemma epub_text_depends_on_documents_only_witness :
  result_of (extract_epub_text Pages.parse_known Libs.temp_file
               LibsMore.read_book_with_images (Bytes "PK-book")) []
  = result_of (extract_epub_text Pages.parse_known Libs.temp_file
                 LibsMore.read_book_plain (Bytes "PK-book")) [].
Proof.
  exact (@epub_text_depends_on_documents_only
           Pages.parse_known Libs.temp_file LibsMore.read_book_with_images
           LibsMore.read_book_plain "PK-book" "/tmp/tmp0.epub"
           _ _ [] eq_refl eq_refl eq_refl eq_refl).
Defined.

(** ** The exceptions of the parser *)

Section Exceptions.

Variable tag_str : Bs4.node -> string.
Variable soup : Bs4.node.

Lemma next_cell_raises td e :
  next_cell soup td = Raise e -> e = AttributeError "find_next_sibling".
Proof.
  unfold next_cell.
  destruct (Bs4.find_next_sibling soup "td" td); [discriminate|].
  destruct (Bs4.find_parent soup "tr" td) as [tr|].
  - destruct (Bs4.find_next_sibling soup "tr" tr); discriminate.
  - intros H. now inversion H.
Qed.

Lemma after_cell_outcome st link :
  bound_together st ->
  match after_cell soup st link with
  | Return st1 => bound_together st1
  | Raise e => e = AttributeError "find_next_sibling"
  end.
Proof.
  intros J. unfold after_cell, describe.
  destruct (Bs4.find_parent soup "td" link) as [td|]; [|exact J].
  destruct (next_cell soup td) as [[cell|]|e] eqn:N; simpl;
    [reflexivity | reflexivity | now apply (@next_cell_raises td)].
Qed.

Lemma loop_body_outcome st link :
  bound_together st ->
  match loop_body tag_str soup st link with
  | Return st' => bound_together st'
  | Raise e => e = AttributeError "find_next_sibling"
               \/ e = UnboundLocalError "date_text"
  end.
Proof.
  intros J. destruct (kept link) eqn:K.
  - rewrite (loop_body_kept tag_str soup st link K).
    pose proof (@after_cell_outcome st link J) as A.
    destruct (after_cell soup st link) as [st1|e]; simpl; [|now left].
    unfold bound_together in A.
    destruct (date_text st1) as [d|]; simpl; [|now right].
    destruct (description_var st1) as [x|]; simpl; [reflexivity | discriminate A].
  - now rewrite (loop_body_skipped tag_str soup st link K).
Qed.

Lemma for_each_raises links : forall st e,
  bound_together st ->
  for_each (loop_body tag_str soup) st links = Raise e ->
  e = AttributeError "find_next_sibling" \/ e = UnboundLocalError "date_text".
Proof.
  induction links as [|link links IH]; intros st e J H; simpl in H;
    [discriminate|].
  pose proof (@loop_body_outcome st link J) as B.
  destruct (loop_body tag_str soup st link) as [st'|e']; simpl in H.
  - apply (IH st' e B H).
  - now inversion H; subst.
Qed.

End Exceptions.

(** X22. Once the page is parsed into a tree, the rest of
    [parse_search_results] raises nothing but the two exceptions of its
    unguarded steps: the AttributeError of the row lookup and the
    UnboundLocalError of [date_text]; [description] is never the variable
    found unbound.  What the parser itself may raise on markup it rejects
    comes before and is not part of this. *)
Theorem parsed_page_raises_only tag_str soup w e :
  result_of (parse_soup tag_str soup) w = Raise e ->
  e = AttributeError "find_next_sibling" \/ e = UnboundLocalError "date_text".
Proof.
  rewrite parse_soup_links.
  destruct (for_each _ _ _) as [st|e'] eqn:L; simpl; [discriminate|].
  intros H; inversion H; subst e'.
  apply (@for_each_raises tag_str soup (links_of soup)
           (Locals [] None None) e);
    [reflexivity | exact L].
Qed.

Lemma parsed_page_raises_only_witness :
  exists e,
    result_of (parse_soup Pages.style_of Pages.cell_without_row) [] = Raise e
    /\ (e = AttributeError "find_next_sibling"
        \/ e = UnboundLocalError "date_text").
Proof.
  exists (AttributeError "find_next_sibling"). split; [reflexivity|].
  exact (@parsed_page_raises_only Pages.style_of Pages.cell_without_row []
           (AttributeError "find_next_sibling") eq_refl).
Defined.

(** ** Script and style elements *)

Module TreeFacts.

Import Bs4.

Lemma node_induction (P : node -> Prop) :
  (forall s, P (NavigableString s)) ->
  (forall s, P (OtherString s)) ->
  (forall name attrs contents,
     Forall P contents -> P (Tag name attrs contents)) ->
  forall n, P n.
Proof.
  intros Hs Ho Ht. fix IH 1. intros [s|s|name attrs contents].
  - apply Hs.
  - apply Ho.
  - apply Ht.
    refine ((fix all (l : list node) : Forall P l :=
               match l with
               | [] => Forall_nil P
               | c :: l' => Forall_cons c (IH c) (all l')
               end) contents).
Qed.

Lemma elements_head p n : elements p n = (p, n) :: tl (elements p n).
Proof. destruct n; reflexivity. Qed.

Lemma is_tag_decompose names name n :
  is_tag name (decompose_all names n) = is_tag name n.
Proof. destruct n; reflexivity. Qed.

Lemma existsb_same {A} (f g : A -> bool) l :
  (forall x, f x = g x) -> existsb f l = existsb g l.
Proof.
  intros E. induction l as [|x l IH]; simpl; [reflexivity|].
  now rewrite E, IH.
Qed.

Lemma first_match_none f (l : list element) :
  Forall (fun d => f d = false) l -> first_match f l = None.
Proof.
  induction 1 as [|d l H _ IH]; simpl; [reflexivity | now rewrite H].
Qed.

(** Below a tree from which the named tags were removed there is no tag so
    named. *)
Lemma decompose_all_none names n :
  forall p, none_named names (tl (elements p (decompose_all names n))).
Proof.
  induction n as [s|s|name attrs contents IH] using node_induction;
    intros p; try constructor.
  cbn [decompose_all elements tl]. generalize 0.
  induction contents as [|c contents IHc]; intros i; [constructor|].
  inversion IH as [|? ? Pc Pcs]; subst.
  destruct (existsb (fun name0 => is_tag name0 c) names) eqn:E.
  - apply (IHc Pcs i).
  - apply Forall_app. split; [|apply (IHc Pcs (S i))].
    rewrite elements_head. constructor; [|apply Pc].
    cbn [snd]. rewrite <- E. apply existsb_same.
    intros name0. apply is_tag_decompose.
Qed.

End TreeFacts.

(** X23. The tree whose text [extract_epub_text] takes for an item holds no
    script and no style element, at any depth: each was removed with all
    that was in it. *)
Theorem item_tree_has_no_script_or_style BeautifulSoup item name :
  In name ["script"; "style"] ->
  Bs4.find name
    ([], Bs4.decompose_all ["script"; "style"]
           (BeautifulSoup (item_content item)))
  = None.
Proof.
  intros H. unfold Bs4.find, Bs4.descendants. cbn [fst snd].
  apply TreeFacts.first_match_none.
  pose proof (TreeFacts.decompose_all_none ["script"; "style"]
                (BeautifulSoup (item_content item)) []) as N.
  unfold none_named in N. rewrite Forall_forall in *.
  intros d Hd. specialize (N d Hd).
  destruct (Bs4.is_tag name (snd d)) eqn:T; [|reflexivity].
  rewrite <- N. symmetry. apply existsb_exists. now exists name.
Qed.

Lemma item_tree_has_no_script_or_style_witness :
  Bs4.find "style"
    ([], Bs4.decompose_all ["script"; "style"]
           (LibsMore.parse_chapter
              (item_content (EpubItem ITEM_DOCUMENT "Chapter one"))))
  = None.
Proof.
  apply (@item_tree_has_no_script_or_style LibsMore.parse_chapter
           (EpubItem ITEM_DOCUMENT "Chapter one") "style").
  right. left. reflexivity.
Defined.
